(** * ARM64 executor: main header (src/arm64/executor/main.h)

    The header fixes the cache geometry, the layout of the sandbox, the
    offsets the measurement templates use to address it, the size of an
    input vector and the configuration defaults.  Each macro is given the
    value of its expression over the integers, division being C's
    truncating division ([Z.quot]).  The header computes in [int]: the
    values agree as long as every intermediate result fits in [int];
    beyond that the compiler folds the expression with wrap-around.
    [Int32] and the [compiled_...] definitions give the values as
    compiled, and a statement that needs the two to agree says so. *)

From Stdlib Require Import ZArith List Lia Bool String Arith.
From Stdlib Require Import Strings.Byte.
Import ListNotations.

Local Open Scope Z_scope.

(** ** Cache configuration

    [L1D_ASSOCIATIVITY] and [L1D_SIZE_K] come from the build command line;
    either may be left undefined, in which case the header falls back to a
    2-way, 32KB cache. *)

Record CacheConfig := mkCacheConfig {
  defined_L1D_ASSOCIATIVITY : option Z;   (* -DL1D_ASSOCIATIVITY=... *)
  defined_L1D_SIZE_K : option Z           (* -DL1D_SIZE_K=... *)
}.

Definition fallback_cache : CacheConfig := mkCacheConfig None None.

Definition L1D_ASSOCIATIVITY (c : CacheConfig) : Z :=
  match defined_L1D_ASSOCIATIVITY c with
  | Some a => a
  | None => 2
  end.

(** The value of [(L1D_SIZE_K * 1024)] over the integers; see
    [compiled_L1D_SIZE] for the [int] the compiler makes of it. *)
Definition L1D_SIZE (c : CacheConfig) : Z :=
  match defined_L1D_SIZE_K c with
  | Some k => k * 1024
  | None => 32768
  end.

Definition L1D_CONFLICT_DISTANCE (c : CacheConfig) : Z :=
  Z.quot (L1D_SIZE c) (L1D_ASSOCIATIVITY c).

(** ** Executor configuration interface *)

Definition UARCH_RESET_ROUNDS_DEFAULT : Z := 1.
Definition ENABLE_FAULTY_DEFAULT : Z := 0.
Definition PRE_RUN_FLUSH_DEFAULT : Z := 1.

(** A C flag held in a [char]: anything but zero is true. *)
Definition flag_on (v : Z) : bool := negb (v =? 0).

Record Config := mkConfig {
  uarch_reset_rounds : Z;            (* long *)
  enable_faulty_page : Z;            (* char *)
  pre_run_flush : Z;                 (* char *)
  attack_template : option string    (* char *, possibly NULL *)
}.

(** Modelled from the spec: the definitions of the [extern] configuration
    variables are not in the header; the spec gives their initial values as
    the three [..._DEFAULT] macros, with no template name chosen yet. *)
Definition default_config : Config :=
  mkConfig UARCH_RESET_ROUNDS_DEFAULT ENABLE_FAULTY_DEFAULT
           PRE_RUN_FLUSH_DEFAULT None.

(** ** Measurement results *)

Definition HTRACE_WIDTH : Z := 1.
Definition NUM_PFC : Z := 3.

(** ** Sandbox *)

Definition WORKING_MEMORY_SIZE : Z := 1048576.
Definition MAIN_REGION_SIZE : Z := 4096.
Definition FAULTY_REGION_SIZE : Z := 4096.
Definition OVERFLOW_REGION_SIZE : Z := 4096.
Definition REG_INITIALIZATION_REGION_SIZE : Z := 64.
Definition EVICT_REGION_SIZE (c : CacheConfig) : Z := L1D_SIZE c.

Definition REG_INIT_OFFSET : Z := 8192.
(** The value of [(EVICT_REGION_SIZE + OVERFLOW_REGION_SIZE)] over the
    integers; see [compiled_EVICT_REGION_OFFSET] for the [int] the compiler
    makes of it. *)
Definition EVICT_REGION_OFFSET (c : CacheConfig) : Z :=
  EVICT_REGION_SIZE c + OVERFLOW_REGION_SIZE.
Definition RSP_OFFSET : Z := 12288.
Definition MEASUREMENT_OFFSET : Z := 12296.

(** ** Test case *)

Definition MAX_TEST_CASE_SIZE : Z := 4096.
Definition MAX_MEASUREMENT_CODE_SIZE : Z := 4096 * 2.

(** ** Inputs *)

Definition REG_INITIALIZATION_REGION_SIZE_ALIGNED : Z := 4096.
Definition INPUT_SIZE : Z :=
  MAIN_REGION_SIZE + FAULTY_REGION_SIZE + REG_INITIALIZATION_REGION_SIZE_ALIGNED.

(** ** The header's arithmetic

    The values given on the command line are [int] literals and the macros
    combine them in [int].  A result outside [int] is folded modulo 2^32
    (with a warning) by the compilers the executor is built with. *)

Module Int32.

Definition INT_MIN : Z := -2147483648.
Definition INT_MAX : Z := 2147483647.

Definition fits (z : Z) : Prop := INT_MIN <= z <= INT_MAX.

Definition wrap (z : Z) : Z := (z - INT_MIN) mod 4294967296 + INT_MIN.

End Int32.

(** [L1D_SIZE] as compiled. *)
Definition compiled_L1D_SIZE (c : CacheConfig) : Z :=
  match defined_L1D_SIZE_K c with
  | Some k => Int32.wrap (k * 1024)
  | None => 32768
  end.

(** [EVICT_REGION_SIZE] as compiled. *)
Definition compiled_EVICT_REGION_SIZE (c : CacheConfig) : Z :=
  compiled_L1D_SIZE c.

(** [EVICT_REGION_OFFSET] as compiled. *)
Definition compiled_EVICT_REGION_OFFSET (c : CacheConfig) : Z :=
  Int32.wrap (compiled_EVICT_REGION_SIZE c + OVERFLOW_REGION_SIZE).

(** ** Struct layout

    A struct declaration is the list of its members in declaration order,
    each with its size and alignment.  Members are placed in that order,
    each at the first multiple of its alignment at or after the end of the
    previous one; the struct is padded at the end to a multiple of its
    strictest alignment.  [char] has size and alignment 1, [uint64_t] size
    and alignment 8. *)

Module Layout.

Record member := mkMember {
  m_name : string;
  m_size : Z;
  m_align : Z
}.

Definition align_up (off a : Z) : Z := (off + a - 1) / a * a.

Definition char_array (name : string) (n : Z) : member :=
  mkMember name n 1.

Definition uint64_array (name : string) (n : Z) : member :=
  mkMember name (8 * n) 8.

(** Members with the offset each one is placed at, starting from [off]. *)
Fixpoint place (off : Z) (ms : list member) : list (member * Z) :=
  match ms with
  | [] => []
  | m :: rest =>
      let o := align_up off (m_align m) in
      (m, o) :: place (o + m_size m) rest
  end.

(** First byte after the last member. *)
Fixpoint end_of (off : Z) (ms : list member) : Z :=
  match ms with
  | [] => off
  | m :: rest => end_of (align_up off (m_align m) + m_size m) rest
  end.

Definition alignof (ms : list member) : Z :=
  fold_right (fun m a => Z.max (m_align m) a) 1 ms.

Definition sizeof (ms : list member) : Z :=
  align_up (end_of 0 ms) (alignof ms).

Fixpoint lookup (name : string) (pl : list (member * Z)) : option Z :=
  match pl with
  | [] => None
  | (m, o) :: rest =>
      if String.eqb (m_name m) name then Some o else lookup name rest
  end.

Definition offsetof (ms : list member) (name : string) : option Z :=
  lookup name (place 0 ms).

Fixpoint size_in (name : string) (ms : list member) : option Z :=
  match ms with
  | [] => None
  | m :: rest =>
      if String.eqb (m_name m) name then Some (m_size m) else size_in name rest
  end.

(** Sum of the sizes of the members declared before [name]. *)
Fixpoint size_before (name : string) (ms : list member) : Z :=
  match ms with
  | [] => 0
  | m :: rest =>
      if String.eqb (m_name m) name then 0
      else m_size m + size_before name rest
  end.

(** [a] ends exactly where [b] starts: no padding between the two. *)
Definition adjacent (ms : list member) (a b : string) : Prop :=
  exists oa sa,
    offsetof ms a = Some oa /\ size_in a ms = Some sa /\
    offsetof ms b = Some (oa + sa).

End Layout.

Local Open Scope string_scope.

(** [struct Measurement] *)
Definition Measurement_members : list Layout.member :=
  [ Layout.uint64_array "htrace" HTRACE_WIDTH;
    Layout.uint64_array "pfc" NUM_PFC ].

(** [struct Sandbox] *)
Definition Sandbox_members (c : CacheConfig) : list Layout.member :=
  [ Layout.char_array "eviction_region" (EVICT_REGION_SIZE c);
    Layout.char_array "lower_overflow" OVERFLOW_REGION_SIZE;
    Layout.char_array "main_region" MAIN_REGION_SIZE;
    Layout.char_array "faulty_region" FAULTY_REGION_SIZE;
    Layout.char_array "upper_overflow" OVERFLOW_REGION_SIZE;
    Layout.uint64_array "stored_rsp" 1;
    Layout.mkMember "latest_measurement"
      (Layout.sizeof Measurement_members)
      (Layout.alignof Measurement_members) ].

(** Offset of a member of the sandbox relative to another one. *)
Definition sandbox_distance (c : CacheConfig) (from to : string) : option Z :=
  match Layout.offsetof (Sandbox_members c) from,
        Layout.offsetof (Sandbox_members c) to with
  | Some a, Some b => Some (b - a)
  | _, _ => None
  end.

(** The three region-size macros, as parameters: [struct Sandbox] and the
    expression of [EVICT_REGION_OFFSET] refer to them by name, the literals
    [REG_INIT_OFFSET], [RSP_OFFSET] and [MEASUREMENT_OFFSET] do not. *)
Record RegionSizes := mkRegionSizes {
  rs_main : Z;       (* MAIN_REGION_SIZE *)
  rs_faulty : Z;     (* FAULTY_REGION_SIZE *)
  rs_overflow : Z    (* OVERFLOW_REGION_SIZE *)
}.

Definition header_region_sizes : RegionSizes :=
  mkRegionSizes MAIN_REGION_SIZE FAULTY_REGION_SIZE OVERFLOW_REGION_SIZE.

(** [struct Sandbox] with the region sizes [rs] in place of the header's. *)
Definition Sandbox_members_sized (rs : RegionSizes) (c : CacheConfig)
  : list Layout.member :=
  [ Layout.char_array "eviction_region" (EVICT_REGION_SIZE c);
    Layout.char_array "lower_overflow" (rs_overflow rs);
    Layout.char_array "main_region" (rs_main rs);
    Layout.char_array "faulty_region" (rs_faulty rs);
    Layout.char_array "upper_overflow" (rs_overflow rs);
    Layout.uint64_array "stored_rsp" 1;
    Layout.mkMember "latest_measurement"
      (Layout.sizeof Measurement_members)
      (Layout.alignof Measurement_members) ].

(** ** The executor behind the header

    The header only declares [trace_test_case] and [load_template]; their
    definitions, and everything they call, live in the executor's C and
    assembly files.  The model below follows the written specification of
    the executor.  What the specification leaves to the hardware or to the
    build (the status code of each error, the names the two templates are
    registered under, the template bodies, the effect of one measured run)
    is gathered in the [Platform] interface. *)

Local Open Scope nat_scope.

(** Modelled from the spec: the error taxonomy of section 7; the header
    names no error. *)
Inductive error : Type :=
| OutOfRange
| UnknownTemplate
| CorruptedSandbox
| SizeViolation.

Inductive result (A : Type) : Type :=
| Ok (a : A)
| Err (e : error).
Arguments Ok {A} a.
Arguments Err {A} e.

Definition bind {A B : Type} (r : result A) (k : A -> result B) : result B :=
  match r with
  | Ok a => k a
  | Err e => Err e
  end.

Notation "x <- r ;; k" := (bind r (fun x => k))
  (at level 61, r at next level, right associativity).

(** The two templates the header declares. *)
Inductive template : Type :=
| template_l1d_prime_probe
| template_l1d_flush_reload.

(** A value of [measurement_t]. *)
Record Measurement := mkMeasurement {
  htrace : list Z;   (* uint64_t [HTRACE_WIDTH] *)
  pfc : list Z       (* uint64_t [NUM_PFC] *)
}.

(** A value of [sandbox_t]. *)
Record Sandbox := mkSandbox {
  eviction_region : list byte;
  lower_overflow : list byte;
  main_region : list byte;
  faulty_region : list byte;
  upper_overflow : list byte;
  stored_rsp : Z;
  latest_measurement : Measurement
}.

(** Modelled from the spec: the session, that is the globals the header
    declares [extern] together with the producer that shares [n_inputs]
    with the executor, which the header does not describe.  [n_inputs] is
    [volatile] because a producer outside the executor changes it while the
    executor runs (section 5); the executor reads it afresh each time.
    [producer] lists the values the producer stores, one after each read
    the executor makes; when the list is empty the count stays as it is. *)
Record Session := mkSession {
  config : Config;
  sandbox : Sandbox;
  test_case : list byte;
  measurement_code : list byte;
  inputs : Z -> byte;      (* the memory [inputs] points to, by byte offset *)
  n_inputs : nat;          (* volatile size_t: the value now in memory *)
  measurements : list Measurement;
  producer : list nat
}.

(** Modelled from the spec: what the executor takes from the hardware and
    the build, none of which the header defines. *)
Class Platform := {
  (** status code returned for an error; the spec fixes only that it is
      not 0 *)
  status_of_error : error -> Z;
  status_of_error_nonzero : forall e, status_of_error e <> 0%Z;
  (** names under which the two templates are selected *)
  prime_probe_name : string;
  flush_reload_name : string;
  (** template body before and after the slot of the test case *)
  template_body : template -> list byte * list byte;
  (** reset, prime, execute, probe: one measured run of the assembled code
      on a prepared sandbox, with the given register seeds; yields the
      sandbox as the run leaves it and the observed trace and counters *)
  measure : Config -> template -> list byte -> list byte -> Sandbox ->
            Sandbox * Measurement
}.

(** Modelled from the spec: the status code of an outcome (section 6): 0 on
    success, the error's code otherwise. *)
Definition status_code `{Platform} (r : option error) : Z :=
  match r with
  | None => 0%Z
  | Some e => status_of_error e
  end.

(** Modelled from the spec: Execution Template Selector (section 4.5); its
    code is not in the header.  The configured name selects one of the two
    templates; a name that matches neither, or no name at all, is
    [UnknownTemplate]. *)
Definition select_template `{Platform} (cfg : Config) : result template :=
  match attack_template cfg with
  | None => Err UnknownTemplate
  | Some name =>
      if String.eqb name prime_probe_name then Ok template_l1d_prime_probe
      else if String.eqb name flush_reload_name then Ok template_l1d_flush_reload
      else Err UnknownTemplate
  end.

(** Modelled from the spec: splicing the test case into the slot of a
    template (section 4.5); the template code is not in the header. *)
Definition splice `{Platform} (t : template) (tc : list byte) : list byte :=
  fst (template_body t) ++ tc ++ snd (template_body t).

(** Modelled from the spec: [load_template] (sections 6 and 8); the header
    only declares it.  A size above [MAX_TEST_CASE_SIZE] is a
    [SizeViolation]; otherwise the first [tc_size] bytes of the test case
    are spliced into the selected template, which fails when no known
    template is selected.  [tc_size] is a [size_t]. *)
Definition load_template_result `{Platform} (st : Session) (tc_size : N)
  : result Session :=
  if (MAX_TEST_CASE_SIZE <? Z.of_N tc_size)%Z then Err SizeViolation
  else
    t <- select_template (config st) ;;
    Ok (mkSession (config st) (sandbox st) (test_case st)
          (splice t (firstn (N.to_nat tc_size) (test_case st)))
          (inputs st) (n_inputs st) (measurements st) (producer st)).

(** Modelled from the spec: [load_template] as the caller sees it, the
    session it leaves and the [int] it returns. *)
Definition load_template `{Platform} (st : Session) (tc_size : N)
  : Session * Z :=
  match load_template_result st tc_size with
  | Ok st' => (st', 0%Z)
  | Err e => (st, status_of_error e)
  end.

(** Bytes [off, off + len) of a memory region. *)
Fixpoint read_bytes (mem : Z -> byte) (off : Z) (len : nat) : list byte :=
  match len with
  | O => []
  | S len' => mem off :: read_bytes mem (off + 1)%Z len'
  end.

(** The [i]-th input vector of the input sequence: the [INPUT_SIZE] bytes
    at byte offset [i * INPUT_SIZE]. *)
Definition input_vector (st : Session) (i : nat) : list byte :=
  read_bytes (inputs st) (Z.of_nat i * INPUT_SIZE)%Z (Z.to_nat INPUT_SIZE).

(** The bytes of an input vector that seed the registers. *)
Definition register_seed (v : list byte) : list byte :=
  skipn (Z.to_nat REG_INIT_OFFSET) v.

(** Modelled from the spec: the copy the Input Installer makes (section
    4.2), an input vector written over [main_region], [faulty_region] and
    the register-initialization area, which is the page [REG_INIT_OFFSET]
    bytes after the start of [main_region]. *)
Definition install (v : list byte) (sb : Sandbox) : Sandbox :=
  mkSandbox (eviction_region sb) (lower_overflow sb)
    (firstn (Z.to_nat MAIN_REGION_SIZE) v)
    (firstn (Z.to_nat FAULTY_REGION_SIZE) (skipn (Z.to_nat MAIN_REGION_SIZE) v))
    (register_seed v)
    (stored_rsp sb) (latest_measurement sb).

(** Modelled from the spec: the session once the executor has read
    [n_inputs]; the producer's next store, if any, has landed (section 5). *)
Definition after_read (st : Session) : Session :=
  match producer st with
  | [] => st
  | n :: later =>
      mkSession (config st) (sandbox st) (test_case st) (measurement_code st)
        (inputs st) n (measurements st) later
  end.

(** The value the [k]-th read of [n_inputs] from now on returns. *)
Definition count_at (st : Session) (k : nat) : nat :=
  nth k (n_inputs st :: producer st) (last (producer st) (n_inputs st)).

(** No read of [n_inputs] returns more than this. *)
Definition count_bound (st : Session) : nat :=
  list_max (n_inputs st :: producer st).

Definition with_sandbox (sb : Sandbox) (st : Session) : Session :=
  mkSession (config st) sb (test_case st) (measurement_code st)
    (inputs st) (n_inputs st) (measurements st) (producer st).

(** Modelled from the spec: Input Installer (section 4.2); its code is not
    in the header.  It reads the input count once and checks the index
    against it, and checks nothing else. *)
Definition load_input (st : Session) (i : nat) : Session * option error :=
  if i <? n_inputs st then
    (with_sandbox (install (input_vector st i) (sandbox st)) (after_read st),
     None)
  else (after_read st, Some OutOfRange).

(** Modelled from the spec: the overflow regions are zeroed before every
    run and checked after it (sections 4.1 and 4.4). *)
Definition zero_page : list byte :=
  repeat x00 (Z.to_nat OVERFLOW_REGION_SIZE).

Definition zero_canaries (sb : Sandbox) : Sandbox :=
  mkSandbox (eviction_region sb) zero_page
    (main_region sb) (faulty_region sb) zero_page
    (stored_rsp sb) (latest_measurement sb).

Definition all_zero (l : list byte) : bool :=
  forallb (fun b => Byte.eqb b x00) l.

Definition canaries_clear (sb : Sandbox) : bool :=
  all_zero (lower_overflow sb) && all_zero (upper_overflow sb).

(** Modelled from the spec: the measurement of a run becomes the sandbox's
    [latest_measurement] (section 4.4). *)
Definition record_measurement (m : Measurement) (sb : Sandbox) : Sandbox :=
  mkSandbox (eviction_region sb) (lower_overflow sb)
    (main_region sb) (faulty_region sb) (upper_overflow sb)
    (stored_rsp sb) m.

(** Modelled from the spec: entry [i] of the measurement buffer is
    overwritten, or appended when the buffer ends at [i] (section 6). *)
Definition store_measurement (i : nat) (m : Measurement)
  (buf : list Measurement) : list Measurement :=
  firstn i buf ++ m :: skipn (S i) buf.

(** Modelled from the spec: one measured run for input [i] on a sandbox
    that holds it (section 4.4): the canaries are zeroed, the register seeds
    go to the registers, and the platform primes, executes and probes. *)
Definition measure_input `{Platform} (t : template) (st : Session) (i : nat)
  (sb : Sandbox) : Sandbox * Measurement :=
  measure (config st) t (measurement_code st)
    (register_seed (input_vector st i))
    (zero_canaries sb).

(** What the [i]-th run observes when it starts from sandbox [sb]. *)
Definition observe `{Platform} (t : template) (st : Session) (i : nat)
  (sb : Sandbox) : Sandbox * Measurement :=
  measure_input t st i (install (input_vector st i) sb).

(** Modelled from the spec: one pass of the Measurement Orchestrator's
    state machine (section 4.4) for input [i]: install the input, zero the
    canaries, run, check the canaries, record.  The flag tells whether the
    run left a canary non-zero; the measurement is recorded either way. *)
Definition run_input `{Platform} (t : template) (i : nat) (st : Session)
  : Session * result bool :=
  match load_input st i with
  | (st1, Some e) => (st1, Err e)
  | (st1, None) =>
      let after := measure_input t st1 i (sandbox st1) in
      (mkSession (config st1)
         (record_measurement (snd after) (fst after))
         (test_case st1) (measurement_code st1) (inputs st1) (n_inputs st1)
         (store_measurement i (snd after) (measurements st1))
         (producer st1),
       Ok (negb (canaries_clear (fst after))))
  end.

(** Modelled from the spec: the orchestrator's loop over the input vectors
    (sections 4.4, 5 and 7).  Each pass reads [n_inputs] to see whether
    input [i] exists, and the installer reads it again.  [OutOfRange] aborts
    at once; a corrupted sandbox is remembered and the loop goes on.  The
    loop is bounded by [fuel]; [None] means the fuel ran out. *)
Fixpoint trace_loop `{Platform} (t : template) (fuel : nat) (i : nat)
  (st : Session) (corrupted : bool) : option (Session * option error) :=
  match fuel with
  | O => None
  | S fuel' =>
      if i <? n_inputs st then
        match run_input t i (after_read st) with
        | (st1, Err e) => Some (st1, Some e)
        | (st1, Ok c) => trace_loop t fuel' (S i) st1 (corrupted || c)
        end
      else
        Some (after_read st, if corrupted then Some CorruptedSandbox else None)
  end.

(** Modelled from the spec: [trace_test_case] (sections 4.4, 6 and 7); the
    header only declares it.  An unknown template aborts before any run.
    The loop gets one pass more than the largest count it can read, which
    is enough for it to end. *)
Definition trace_outcome `{Platform} (st : Session) : Session * option error :=
  match select_template (config st) with
  | Err e => (st, Some e)
  | Ok t =>
      match trace_loop t (S (count_bound st)) 0 st false with
      | Some r => r
      | None => (st, None)
      end
  end.

(** Modelled from the spec: [trace_test_case] as the caller sees it, the
    session it leaves and the [int] it returns. *)
Definition trace_test_case `{Platform} (st : Session) : Session * Z :=
  (fst (trace_outcome st), status_code (snd (trace_outcome st))).

(** Fields of the session a run never changes. *)
Definition same_setup (a b : Session) : Prop :=
  config a = config b /\ test_case a = test_case b /\
  measurement_code a = measurement_code b /\
  inputs a = inputs b.

(** The sandbox the [i]-th run of a session starts from: the session's own
    sandbox for the first run, afterwards the sandbox the previous run left,
    with its measurement recorded. *)
Fixpoint sandbox_at `{Platform} (t : template) (st : Session) (i : nat)
  : Sandbox :=
  match i with
  | O => sandbox st
  | S j =>
      let after := observe t st j (sandbox_at t st j) in
      record_measurement (snd after) (fst after)
  end.

(** The measurement of the [i]-th run of a session. *)
Definition measurement_of `{Platform} (t : template) (st : Session) (i : nat)
  : Measurement :=
  snd (observe t st i (sandbox_at t st i)).

(** Whether the [i]-th run of a session leaves a canary non-zero. *)
Definition corrupts `{Platform} (t : template) (st : Session) (i : nat)
  : bool :=
  negb (canaries_clear (fst (observe t st i (sandbox_at t st i)))).

(** ** Sample configurations *)

Definition four_way_64k : CacheConfig := mkCacheConfig (Some 4%Z) (Some 64%Z).

Definition first_byte (l : list byte) : Z := Z.of_N (Byte.to_N (hd x00 l)).

(** A platform whose run leaves the sandbox as it is and reports the first
    byte of [main_region] as the trace word, and as counters the first byte
    of [faulty_region], the first register seed, and whether the canaries
    were clear when the run started. *)
#[local] Program Instance sample_platform : Platform := {|
  status_of_error e :=
    match e with
    | OutOfRange => 1%Z
    | UnknownTemplate => 2%Z
    | CorruptedSandbox => 3%Z
    | SizeViolation => 4%Z
    end;
  prime_probe_name := "prime_probe";
  flush_reload_name := "flush_reload";
  template_body _ := ([], []);
  measure _ _ _ regs sb :=
    (sb, mkMeasurement [first_byte (main_region sb)]
           [first_byte (faulty_region sb); first_byte regs;
            if canaries_clear sb then 1%Z else 0%Z])
|}.
Next Obligation. destruct e; discriminate. Defined.

Definition sample_sandbox : Sandbox :=
  mkSandbox (repeat x00 (Z.to_nat (EVICT_REGION_SIZE fallback_cache)))
    zero_page
    (repeat x00 (Z.to_nat MAIN_REGION_SIZE))
    (repeat x00 (Z.to_nat FAULTY_REGION_SIZE))
    zero_page 0%Z (mkMeasurement [0%Z] [0%Z; 0%Z; 0%Z]).

(** Input memory holding two vectors: the first has [0x01] in the main
    page, [0x02] in the faulty page and [0x03] in the register page, the
    second [0x11], [0x12] and [0x13]. *)
Definition sample_inputs (off : Z) : byte :=
  if (off <? MAIN_REGION_SIZE)%Z then x01
  else if (off <? REG_INIT_OFFSET)%Z then x02
  else if (off <? INPUT_SIZE)%Z then x03
  else if (off <? INPUT_SIZE + MAIN_REGION_SIZE)%Z then x11
  else if (off <? INPUT_SIZE + REG_INIT_OFFSET)%Z then x12
  else x13.

(** Two inputs, a count that stays at 2, an empty measurement buffer. *)
Definition sample_session : Session :=
  mkSession
    (mkConfig UARCH_RESET_ROUNDS_DEFAULT ENABLE_FAULTY_DEFAULT
       PRE_RUN_FLUSH_DEFAULT (Some "flush_reload"))
    sample_sandbox
    (repeat x00 (Z.to_nat MAX_TEST_CASE_SIZE))
    []
    sample_inputs
    2
    []
    [].

(** The same session with a producer that takes the second input back
    between the loop's check of index 1 and the installer's. *)
Definition shrinking_session : Session :=
  mkSession (config sample_session) sample_sandbox
    (test_case sample_session) [] sample_inputs 2 [] [2; 2; 1].

(** The largest cache, in kilobytes, whose size in bytes is an [int]. *)
Definition cache_2097151k : CacheConfig :=
  mkCacheConfig None (Some 2097151%Z).

(** The header's region sizes but for a [main_region] of two pages. *)
Definition two_page_main_region : RegionSizes :=
  mkRegionSizes 8192%Z FAULTY_REGION_SIZE OVERFLOW_REGION_SIZE.

(** A cache of 1007 kilobytes, the largest whose sandbox fits in the
    working memory. *)
Definition cache_1007k : CacheConfig := mkCacheConfig None (Some 1007%Z).

(** A 3-way cache of the fallback size: the associativity does not divide
    the size. *)
Definition three_way_32k : CacheConfig := mkCacheConfig (Some 3%Z) None.

(** A 16-way 48KB cache. *)
Definition sixteen_way_48k : CacheConfig :=
  mkCacheConfig (Some 16%Z) (Some 48%Z).

(** * Properties *)

Local Open Scope Z_scope.

(** ** Layout arithmetic *)

Lemma align_up_byte (off : Z) : Layout.align_up off 1 = off.
Proof.
  unfold Layout.align_up. rewrite Z.div_1_r. lia.
Qed.

Lemma align_up_multiple (off a : Z) :
  0 < a -> (a | off) -> Layout.align_up off a = off.
Proof.
  intros Ha [q ->]. unfold Layout.align_up.
  replace (q * a + a - 1) with (a - 1 + q * a) by lia.
  rewrite Z.div_add by lia.
  rewrite Z.div_small by lia. lia.
Qed.

(** The cache size is a whole number of 8-byte words, whether it is given
    in kilobytes or left to the fallback. *)
Lemma L1D_SIZE_word_multiple (c : CacheConfig) : (8 | L1D_SIZE c).
Proof.
  unfold L1D_SIZE. destruct (defined_L1D_SIZE_K c) as [k|].
  - exists (k * 128). lia.
  - exists 4096. reflexivity.
Qed.

Lemma Measurement_sizeof : Layout.sizeof Measurement_members = 32.
Proof. reflexivity. Qed.

Lemma Measurement_alignof : Layout.alignof Measurement_members = 8.
Proof. reflexivity. Qed.

(** Where each member of the sandbox lands, for any cache configuration. *)
Lemma Sandbox_placement (c : CacheConfig) :
  Layout.place 0 (Sandbox_members c) =
  combine (Sandbox_members c)
  [ 0;
    EVICT_REGION_SIZE c;
    EVICT_REGION_SIZE c + 4096;
    EVICT_REGION_SIZE c + 8192;
    EVICT_REGION_SIZE c + 12288;
    EVICT_REGION_SIZE c + 16384;
    EVICT_REGION_SIZE c + 16392 ].
Proof.
  unfold Sandbox_members, Layout.char_array, Layout.uint64_array.
  rewrite Measurement_sizeof, Measurement_alignof.
  cbn [Layout.place combine Layout.m_align Layout.m_size].
  rewrite !align_up_byte.
  unfold OVERFLOW_REGION_SIZE, MAIN_REGION_SIZE, FAULTY_REGION_SIZE.
  assert (H8 : (8 | 0 + EVICT_REGION_SIZE c + 4096 + 4096 + 4096 + 4096)).
  { destruct (L1D_SIZE_word_multiple c) as [q Hq].
    unfold EVICT_REGION_SIZE. exists (q + 2048). lia. }
  rewrite (align_up_multiple _ 8) by (lia || exact H8).
  assert (H8' : (8 | 0 + EVICT_REGION_SIZE c + 4096 + 4096 + 4096 + 4096 + 8 * 1)).
  { destruct H8 as [q Hq]. exists (q + 1). lia. }
  rewrite (align_up_multiple _ 8) by (lia || exact H8').
  repeat (f_equal; try lia).
Qed.

Lemma Sandbox_offsetof (c : CacheConfig) :
  Layout.offsetof (Sandbox_members c) "eviction_region" = Some 0 /\
  Layout.offsetof (Sandbox_members c) "lower_overflow" =
    Some (EVICT_REGION_SIZE c) /\
  Layout.offsetof (Sandbox_members c) "main_region" =
    Some (EVICT_REGION_SIZE c + 4096) /\
  Layout.offsetof (Sandbox_members c) "faulty_region" =
    Some (EVICT_REGION_SIZE c + 8192) /\
  Layout.offsetof (Sandbox_members c) "upper_overflow" =
    Some (EVICT_REGION_SIZE c + 12288) /\
  Layout.offsetof (Sandbox_members c) "stored_rsp" =
    Some (EVICT_REGION_SIZE c + 16384) /\
  Layout.offsetof (Sandbox_members c) "latest_measurement" =
    Some (EVICT_REGION_SIZE c + 16392).
Proof.
  unfold Layout.offsetof. rewrite Sandbox_placement.
  repeat split; reflexivity.
Qed.

(** ** The header's constants *)

Lemma wrap_fits (z : Z) : Int32.fits z -> Int32.wrap z = z.
Proof.
  unfold Int32.fits, Int32.wrap, Int32.INT_MIN, Int32.INT_MAX. intros Hz.
  rewrite Z.mod_small by lia. lia.
Qed.

(** Folding changes a value by a multiple of 2^32 only, so what holds of a
    size modulo 8, 1024 or 4096 holds of the compiled size too. *)
Lemma wrap_congruent (z : Z) :
  exists q, Int32.wrap z = z + q * 4294967296.
Proof.
  unfold Int32.wrap.
  exists (- ((z - Int32.INT_MIN) / 4294967296)).
  rewrite Z.mod_eq by lia. lia.
Qed.

Lemma compiled_L1D_SIZE_fits (c : CacheConfig) :
  Int32.fits (L1D_SIZE c) -> compiled_L1D_SIZE c = L1D_SIZE c.
Proof.
  unfold compiled_L1D_SIZE, L1D_SIZE.
  destruct (defined_L1D_SIZE_K c) as [k|]; [apply wrap_fits | reflexivity].
Qed.

Lemma compiled_EVICT_REGION_OFFSET_fits (c : CacheConfig) :
  Int32.fits (L1D_SIZE c) ->
  Int32.fits (L1D_SIZE c + OVERFLOW_REGION_SIZE) ->
  compiled_EVICT_REGION_OFFSET c = EVICT_REGION_OFFSET c.
Proof.
  intros Hs Ho.
  unfold compiled_EVICT_REGION_OFFSET, compiled_EVICT_REGION_SIZE.
  rewrite (compiled_L1D_SIZE_fits c Hs). apply wrap_fits, Ho.
Qed.

(** C1, as amended: whatever the cache configuration, the literals
    [REG_INIT_OFFSET] (8192), [RSP_OFFSET] (12288) and [MEASUREMENT_OFFSET]
    (12296) equal [MAIN_REGION_SIZE + FAULTY_REGION_SIZE], that plus
    [OVERFLOW_REGION_SIZE], and that plus the size of [stored_rsp]; each is
    the sum of the sizes of the members declared between [main_region] and
    the member it addresses, and the distance at which the layout places
    that member.  [EVICT_REGION_OFFSET] is computed as
    [EVICT_REGION_SIZE + OVERFLOW_REGION_SIZE] and is the offset of
    [main_region] whenever the cache size and that sum fit in [int].  Of
    the four, only [EVICT_REGION_OFFSET] follows the region sizes: with
    other region sizes the members move to the sums of those sizes, while
    the three literals stay at 8192, 12288 and 12296. *)
Theorem offsets_consistent_with_members (c : CacheConfig) :
  (REG_INIT_OFFSET = MAIN_REGION_SIZE + FAULTY_REGION_SIZE /\
   REG_INIT_OFFSET = 8192) /\
  (RSP_OFFSET = MAIN_REGION_SIZE + FAULTY_REGION_SIZE + OVERFLOW_REGION_SIZE /\
   RSP_OFFSET = 12288) /\
  (Layout.size_in "stored_rsp" (Sandbox_members c) = Some 8 /\
   MEASUREMENT_OFFSET = RSP_OFFSET + 8 /\
   MEASUREMENT_OFFSET = 12296) /\
  (let before name := Layout.size_before name (Sandbox_members c) in
   REG_INIT_OFFSET = before "upper_overflow" - before "main_region" /\
   RSP_OFFSET = before "stored_rsp" - before "main_region" /\
   MEASUREMENT_OFFSET = before "latest_measurement" - before "main_region") /\
  (sandbox_distance c "main_region" "upper_overflow" = Some REG_INIT_OFFSET /\
   sandbox_distance c "main_region" "stored_rsp" = Some RSP_OFFSET /\
   sandbox_distance c "main_region" "latest_measurement" =
     Some MEASUREMENT_OFFSET) /\
  (Int32.fits (L1D_SIZE c) ->
   Int32.fits (L1D_SIZE c + OVERFLOW_REGION_SIZE) ->
   compiled_EVICT_REGION_SIZE c = EVICT_REGION_SIZE c /\
   compiled_EVICT_REGION_OFFSET c = EVICT_REGION_SIZE c + OVERFLOW_REGION_SIZE /\
   compiled_EVICT_REGION_OFFSET c =
     Layout.size_before "main_region" (Sandbox_members c) /\
   Layout.offsetof (Sandbox_members c) "main_region" =
     Some (compiled_EVICT_REGION_OFFSET c)) /\
  (forall rs : RegionSizes,
     let before name := Layout.size_before name (Sandbox_members_sized rs c) in
     before "upper_overflow" - before "main_region" =
       rs_main rs + rs_faulty rs /\
     before "stored_rsp" - before "main_region" =
       rs_main rs + rs_faulty rs + rs_overflow rs /\
     before "latest_measurement" - before "main_region" =
       rs_main rs + rs_faulty rs + rs_overflow rs + 8 /\
     before "main_region" = EVICT_REGION_SIZE c + rs_overflow rs) /\
  Sandbox_members_sized header_region_sizes c = Sandbox_members c.
Proof.
  split; [split; reflexivity|].
  split; [split; reflexivity|].
  split; [repeat split; reflexivity|].
  split.
  { cbv zeta. unfold Sandbox_members, Layout.char_array, Layout.uint64_array.
    cbn [Layout.size_before Layout.m_name Layout.m_size String.eqb Ascii.eqb
         Bool.eqb].
    unfold REG_INIT_OFFSET, RSP_OFFSET, MEASUREMENT_OFFSET,
      OVERFLOW_REGION_SIZE, MAIN_REGION_SIZE, FAULTY_REGION_SIZE.
    repeat split; lia. }
  split.
  { unfold sandbox_distance.
    destruct (Sandbox_offsetof c) as (_ & _ & Hm & _ & Hu & Hr & Hl).
    rewrite Hm, Hu, Hr, Hl.
    unfold REG_INIT_OFFSET, RSP_OFFSET, MEASUREMENT_OFFSET.
    repeat split; f_equal; lia. }
  split.
  { intros Hs Ho.
    destruct (Sandbox_offsetof c) as (_ & _ & Hm & _).
    rewrite (compiled_EVICT_REGION_OFFSET_fits c Hs Ho), Hm.
    unfold compiled_EVICT_REGION_SIZE. rewrite (compiled_L1D_SIZE_fits c Hs).
    unfold EVICT_REGION_OFFSET, OVERFLOW_REGION_SIZE.
    split; [reflexivity|]. split; [reflexivity|].
    split; [|reflexivity].
    unfold Sandbox_members, Layout.char_array.
    cbn [Layout.size_before Layout.m_name Layout.m_size String.eqb Ascii.eqb
         Bool.eqb].
    unfold OVERFLOW_REGION_SIZE. lia. }
  split; [|reflexivity].
  intros rs. cbv zeta.
  unfold Sandbox_members_sized, Layout.char_array, Layout.uint64_array.
  cbn [Layout.size_before Layout.m_name Layout.m_size String.eqb Ascii.eqb
       Bool.eqb].
  repeat split; lia.
Qed.

(** With the fallback cache every size fits. *)
Lemma offsets_consistent_with_members_witness :
  (Int32.fits (L1D_SIZE fallback_cache) /\
   Int32.fits (L1D_SIZE fallback_cache + OVERFLOW_REGION_SIZE)) /\
  Layout.offsetof (Sandbox_members fallback_cache) "main_region" =
    Some (compiled_EVICT_REGION_OFFSET fallback_cache).
Proof.
  assert (Hs : Int32.fits (L1D_SIZE fallback_cache))
    by (split; discriminate).
  assert (Ho : Int32.fits (L1D_SIZE fallback_cache + OVERFLOW_REGION_SIZE))
    by (split; discriminate).
  split; [split; assumption|].
  pose proof (offsets_consistent_with_members fallback_cache)
    as (_ & _ & _ & _ & _ & Hfit & _).
  exact (proj2 (proj2 (proj2 (Hfit Hs Ho)))).
Defined.

(** C1 as stated fails twice.  With [L1D_SIZE_K] = 2097151 the cache size is
    an [int] and the struct is well formed, but
    [EVICT_REGION_SIZE + OVERFLOW_REGION_SIZE] leaves [int]: the macro
    compiles to -2147480576 while [main_region] is at offset 2147486720.
    And the literals are not derived from the sizes: with a [main_region]
    of two pages, [upper_overflow] would be 12288 bytes after
    [main_region], not [REG_INIT_OFFSET]. *)
Lemma offsets_neither_total_nor_derived :
  (Int32.fits (L1D_SIZE cache_2097151k) /\
   compiled_EVICT_REGION_SIZE cache_2097151k = 2147482624 /\
   Layout.offsetof (Sandbox_members cache_2097151k) "main_region" =
     Some 2147486720 /\
   compiled_EVICT_REGION_OFFSET cache_2097151k = -2147480576 /\
   Layout.offsetof (Sandbox_members cache_2097151k) "main_region" <>
     Some (compiled_EVICT_REGION_OFFSET cache_2097151k) /\
   compiled_EVICT_REGION_OFFSET cache_2097151k <>
     Layout.size_before "main_region" (Sandbox_members cache_2097151k)) /\
  (Layout.size_before "upper_overflow"
     (Sandbox_members_sized two_page_main_region fallback_cache) -
   Layout.size_before "main_region"
     (Sandbox_members_sized two_page_main_region fallback_cache) = 12288 /\
   Layout.size_before "upper_overflow"
     (Sandbox_members_sized two_page_main_region fallback_cache) -
   Layout.size_before "main_region"
     (Sandbox_members_sized two_page_main_region fallback_cache) <>
   REG_INIT_OFFSET).
Proof.
  split.
  - split; [split; discriminate|].
    repeat split; try reflexivity; vm_compute; discriminate.
  - split; [reflexivity | vm_compute; discriminate].
Qed.

(** C2: the sandbox is one record whose members are, in this order,
    [eviction_region] ([EVICT_REGION_SIZE] bytes), [lower_overflow],
    [main_region], [faulty_region], [upper_overflow] (4096 bytes each),
    [stored_rsp] (8 bytes) and [latest_measurement]; each starts exactly
    where the one before it ends. *)
Theorem Sandbox_member_order (c : CacheConfig) :
  map Layout.m_name (Sandbox_members c) =
    [ "eviction_region"; "lower_overflow"; "main_region"; "faulty_region";
      "upper_overflow"; "stored_rsp"; "latest_measurement" ] /\
  map Layout.m_size (Sandbox_members c) =
    [ EVICT_REGION_SIZE c; 4096; 4096; 4096; 4096; 8; 32 ] /\
  Layout.adjacent (Sandbox_members c) "eviction_region" "lower_overflow" /\
  Layout.adjacent (Sandbox_members c) "lower_overflow" "main_region" /\
  Layout.adjacent (Sandbox_members c) "main_region" "faulty_region" /\
  Layout.adjacent (Sandbox_members c) "faulty_region" "upper_overflow" /\
  Layout.adjacent (Sandbox_members c) "upper_overflow" "stored_rsp" /\
  Layout.adjacent (Sandbox_members c) "stored_rsp" "latest_measurement".
Proof.
  destruct (Sandbox_offsetof c) as (He & Hl & Hm & Hf & Hu & Hr & Hx).
  split; [reflexivity|]. split; [reflexivity|].
  unfold Layout.adjacent.
  repeat split.
  - exists 0, (EVICT_REGION_SIZE c). rewrite He, Hl. auto.
  - exists (EVICT_REGION_SIZE c), 4096. rewrite Hl, Hm. auto.
  - exists (EVICT_REGION_SIZE c + 4096), 4096. rewrite Hm, Hf.
    repeat split; try reflexivity. f_equal; lia.
  - exists (EVICT_REGION_SIZE c + 8192), 4096. rewrite Hf, Hu.
    repeat split; try reflexivity. f_equal; lia.
  - exists (EVICT_REGION_SIZE c + 12288), 4096. rewrite Hu, Hr.
    repeat split; try reflexivity. f_equal; lia.
  - exists (EVICT_REGION_SIZE c + 16384), 8. rewrite Hr, Hx.
    repeat split; try reflexivity. f_equal; lia.
Qed.

(** C3: the eviction region is as large as the L1 data cache, for every
    cache configuration: [L1D_SIZE_K * 1024] bytes when the size is given in
    kilobytes, 32768 bytes when it is not. *)
Theorem eviction_region_is_cache_size :
  (forall c, EVICT_REGION_SIZE c = L1D_SIZE c) /\
  (forall a k, L1D_SIZE (mkCacheConfig a (Some k)) = k * 1024) /\
  (forall a, L1D_SIZE (mkCacheConfig a None) = 32768) /\
  (forall c, Layout.size_in "eviction_region" (Sandbox_members c) =
             Some (L1D_SIZE c)).
Proof.
  repeat split; reflexivity.
Qed.

(** C7: the configuration defaults are one reset round, faulty page off,
    pre-run flush on. *)
Theorem configuration_defaults :
  UARCH_RESET_ROUNDS_DEFAULT = 1 /\
  ENABLE_FAULTY_DEFAULT = 0 /\
  PRE_RUN_FLUSH_DEFAULT = 1 /\
  uarch_reset_rounds default_config = 1 /\
  flag_on (enable_faulty_page default_config) = false /\
  flag_on (pre_run_flush default_config) = true.
Proof.
  repeat split; reflexivity.
Qed.

(** Truncating division undoes an exact multiple. *)
Lemma quot_exact (s a : Z) : (a | s) -> s = a * Z.quot s a.
Proof.
  intros [q ->]. destruct (Z.eq_dec a 0) as [->|Ha].
  - lia.
  - rewrite Z.quot_mul by exact Ha. lia.
Qed.

(** C8: [L1D_CONFLICT_DISTANCE] is the cache size divided by the
    associativity; whenever the associativity divides the cache size the
    eviction region is exactly [L1D_ASSOCIATIVITY] conflict distances long;
    with the fallback geometry the conflict distance is 16384. *)
Theorem conflict_distance_is_one_way (c : CacheConfig) :
  L1D_CONFLICT_DISTANCE c = Z.quot (L1D_SIZE c) (L1D_ASSOCIATIVITY c) /\
  ((L1D_ASSOCIATIVITY c | L1D_SIZE c) ->
   EVICT_REGION_SIZE c = L1D_ASSOCIATIVITY c * L1D_CONFLICT_DISTANCE c) /\
  (L1D_SIZE fallback_cache = 32768 /\
   L1D_ASSOCIATIVITY fallback_cache = 2 /\
   L1D_CONFLICT_DISTANCE fallback_cache = 16384).
Proof.
  split; [reflexivity|]. split.
  - intros Hdiv. unfold EVICT_REGION_SIZE, L1D_CONFLICT_DISTANCE.
    apply quot_exact, Hdiv.
  - repeat split; reflexivity.
Qed.

(** A 4-way 64KB cache: 65536 = 4 * 16384. *)
Lemma conflict_distance_is_one_way_witness :
  (L1D_ASSOCIATIVITY four_way_64k | L1D_SIZE four_way_64k) /\
  EVICT_REGION_SIZE four_way_64k =
    L1D_ASSOCIATIVITY four_way_64k * L1D_CONFLICT_DISTANCE four_way_64k.
Proof.
  assert (Hdiv : (L1D_ASSOCIATIVITY four_way_64k | L1D_SIZE four_way_64k))
    by (exists 16384; reflexivity).
  split; [exact Hdiv|].
  exact (proj1 (proj2 (conflict_distance_is_one_way four_way_64k)) Hdiv).
Defined.

(** C9: with the fallback cache geometry the sandbox takes
    32768 + 4 * 4096 + 8 + 32 = 49192 bytes, which fits in
    [WORKING_MEMORY_SIZE] = 1048576 bytes. *)
Theorem fallback_sandbox_fits_working_memory :
  L1D_SIZE fallback_cache = 32768 /\
  EVICT_REGION_SIZE fallback_cache = 32768 /\
  Layout.sizeof Measurement_members = 32 /\
  Layout.sizeof (Sandbox_members fallback_cache) =
    32768 + 4 * 4096 + 8 + 32 /\
  Layout.sizeof (Sandbox_members fallback_cache) = 49192 /\
  WORKING_MEMORY_SIZE = 1048576 /\
  Layout.sizeof (Sandbox_members fallback_cache) <= WORKING_MEMORY_SIZE.
Proof.
  repeat split; try reflexivity.
  vm_compute. discriminate.
Qed.

(** C10: an input vector is [MAIN_REGION_SIZE + FAULTY_REGION_SIZE +
    REG_INITIALIZATION_REGION_SIZE_ALIGNED] = 12288 bytes, three whole
    4096-byte pages, although only [REG_INITIALIZATION_REGION_SIZE] = 64
    bytes of the last page seed registers: the register area is padded
    from 64 to 4096 bytes. *)
Theorem input_vector_is_three_pages :
  INPUT_SIZE =
    MAIN_REGION_SIZE + FAULTY_REGION_SIZE +
    REG_INITIALIZATION_REGION_SIZE_ALIGNED /\
  INPUT_SIZE = 12288 /\
  INPUT_SIZE = 3 * 4096 /\
  INPUT_SIZE mod 4096 = 0 /\
  REG_INITIALIZATION_REGION_SIZE = 64 /\
  REG_INITIALIZATION_REGION_SIZE_ALIGNED = 4096 /\
  REG_INITIALIZATION_REGION_SIZE_ALIGNED =
    REG_INITIALIZATION_REGION_SIZE + 4032.
Proof.
  repeat split; reflexivity.
Qed.

(** ** The executor *)

Local Close Scope string_scope.
Local Open Scope nat_scope.
Local Open Scope list_scope.

Example sample_trace :
  measurements (fst (trace_test_case sample_session)) =
    [ mkMeasurement [1%Z] [2%Z; 3%Z; 1%Z];
      mkMeasurement [17%Z] [18%Z; 19%Z; 1%Z] ] /\
  latest_measurement (sandbox (fst (trace_test_case sample_session))) =
    mkMeasurement [17%Z] [18%Z; 19%Z; 1%Z] /\
  snd (trace_test_case sample_session) = 0%Z.
Proof. vm_compute. repeat split. Qed.

Example shrinking_trace :
  measurements (fst (trace_test_case shrinking_session)) =
    [ mkMeasurement [1%Z] [2%Z; 3%Z; 1%Z] ] /\
  snd (trace_outcome shrinking_session) = Some OutOfRange /\
  snd (trace_test_case shrinking_session) = 1%Z.
Proof. vm_compute. repeat split. Qed.

(** *** Input Installer *)

Lemma read_bytes_length (mem : Z -> byte) (off : Z) (len : nat) :
  List.length (read_bytes mem off len) = len.
Proof.
  revert off. induction len as [|len IH]; intros off; cbn [read_bytes List.length].
  - reflexivity.
  - rewrite IH. reflexivity.
Qed.

Lemma read_bytes_nth (mem : Z -> byte) (off : Z) (len k : nat) :
  k < len ->
  nth_error (read_bytes mem off len) k = Some (mem (off + Z.of_nat k)%Z).
Proof.
  revert off k. induction len as [|len IH]; intros off k Hk; [lia|].
  cbn [read_bytes]. destruct k as [|k]; cbn [nth_error].
  - f_equal. f_equal. lia.
  - rewrite IH by lia. f_equal. f_equal. lia.
Qed.

Lemma REG_INIT_OFFSET_split :
  Z.to_nat REG_INIT_OFFSET =
  Z.to_nat MAIN_REGION_SIZE + Z.to_nat FAULTY_REGION_SIZE.
Proof.
  rewrite <- Z2Nat.inj_add by (unfold MAIN_REGION_SIZE, FAULTY_REGION_SIZE; lia).
  reflexivity.
Qed.

Lemma INPUT_SIZE_split :
  Z.to_nat INPUT_SIZE =
  Z.to_nat REG_INIT_OFFSET + Z.to_nat REG_INITIALIZATION_REGION_SIZE_ALIGNED.
Proof.
  rewrite <- Z2Nat.inj_add
    by (unfold REG_INIT_OFFSET, REG_INITIALIZATION_REGION_SIZE_ALIGNED; lia).
  reflexivity.
Qed.

(** The three installed areas, read back in order, are the input vector. *)
Lemma install_covers (v : list byte) (sb : Sandbox) :
  main_region (install v sb) ++ faulty_region (install v sb) ++
  upper_overflow (install v sb) = v.
Proof.
  unfold install, register_seed. cbn [main_region faulty_region upper_overflow].
  rewrite REG_INIT_OFFSET_split.
  set (m := Z.to_nat MAIN_REGION_SIZE). set (f := Z.to_nat FAULTY_REGION_SIZE).
  rewrite Nat.add_comm, <- skipn_skipn.
  rewrite (firstn_skipn f (skipn m v)).
  apply firstn_skipn.
Qed.

(** Where each byte of an installed input vector comes from. *)
Lemma install_input_vector (st : Session) (i : nat) (sb : Sandbox) :
  let off := (Z.of_nat i * INPUT_SIZE)%Z in
  let sb' := install (input_vector st i) sb in
  (forall k, k < Z.to_nat MAIN_REGION_SIZE ->
     nth_error (main_region sb') k =
       Some (inputs st (off + Z.of_nat k)%Z)) /\
  (forall k, k < Z.to_nat FAULTY_REGION_SIZE ->
     nth_error (faulty_region sb') k =
       Some (inputs st (off + MAIN_REGION_SIZE + Z.of_nat k)%Z)) /\
  (forall k, k < Z.to_nat REG_INITIALIZATION_REGION_SIZE_ALIGNED ->
     nth_error (upper_overflow sb') k =
       Some (inputs st (off + REG_INIT_OFFSET + Z.of_nat k)%Z)) /\
  List.length (main_region sb') = Z.to_nat MAIN_REGION_SIZE /\
  List.length (faulty_region sb') = Z.to_nat FAULTY_REGION_SIZE /\
  List.length (upper_overflow sb') =
    Z.to_nat REG_INITIALIZATION_REGION_SIZE_ALIGNED.
Proof.
  cbv zeta. unfold install, register_seed, input_vector.
  cbn [main_region faulty_region upper_overflow].
  set (off := (Z.of_nat i * INPUT_SIZE)%Z).
  pose proof INPUT_SIZE_split as Hin. pose proof REG_INIT_OFFSET_split as Hreg.
  assert (Hm : Z.of_nat (Z.to_nat MAIN_REGION_SIZE) = MAIN_REGION_SIZE)
    by (apply Z2Nat.id; unfold MAIN_REGION_SIZE; lia).
  assert (Hr : Z.of_nat (Z.to_nat REG_INIT_OFFSET) = REG_INIT_OFFSET)
    by (apply Z2Nat.id; unfold REG_INIT_OFFSET; lia).
  set (n := Z.to_nat INPUT_SIZE) in *.
  set (m := Z.to_nat MAIN_REGION_SIZE) in *.
  set (f := Z.to_nat FAULTY_REGION_SIZE) in *.
  set (r := Z.to_nat REG_INIT_OFFSET) in *.
  set (a := Z.to_nat REG_INITIALIZATION_REGION_SIZE_ALIGNED) in *.
  split; [|split; [|split; [|split; [|split]]]].
  - intros k Hk. rewrite nth_error_firstn.
    destruct (Nat.ltb_spec k m) as [_|Hge]; [|lia].
    apply read_bytes_nth. lia.
  - intros k Hk. rewrite nth_error_firstn.
    destruct (Nat.ltb_spec k f) as [_|Hge]; [|lia].
    rewrite nth_error_skipn, read_bytes_nth by lia.
    f_equal. f_equal. lia.
  - intros k Hk. rewrite nth_error_skipn, read_bytes_nth by lia.
    f_equal. f_equal. lia.
  - rewrite length_firstn, read_bytes_length. lia.
  - rewrite length_firstn, length_skipn, read_bytes_length. lia.
  - rewrite length_skipn, read_bytes_length. lia.
Qed.

Lemma load_input_in_range (st : Session) (i : nat) :
  i < n_inputs st ->
  load_input st i =
  (with_sandbox (install (input_vector st i) (sandbox st)) (after_read st),
   None).
Proof.
  intros Hi. unfold load_input.
  destruct (Nat.ltb_spec i (n_inputs st)); [reflexivity | lia].
Qed.

Lemma load_input_out_of_range (st : Session) (i : nat) :
  n_inputs st <= i -> load_input st i = (after_read st, Some OutOfRange).
Proof.
  intros Hi. unfold load_input.
  destruct (Nat.ltb_spec i (n_inputs st)); [lia | reflexivity].
Qed.

(** A read of the counter changes nothing but the counter. *)
Lemma after_read_keeps (st : Session) :
  config (after_read st) = config st /\
  sandbox (after_read st) = sandbox st /\
  test_case (after_read st) = test_case st /\
  measurement_code (after_read st) = measurement_code st /\
  inputs (after_read st) = inputs st /\
  measurements (after_read st) = measurements st.
Proof.
  unfold after_read. destruct (producer st); repeat split.
Qed.

(** C6: for an index below the current input count the Input Installer
    succeeds and copies the [INPUT_SIZE] bytes of that input vector: the
    first [MAIN_REGION_SIZE] of them make up [main_region], the next
    [FAULTY_REGION_SIZE] make up [faulty_region], and the rest, from
    [REG_INIT_OFFSET] on, make up the register-initialization area; nothing
    else in the sandbox changes.  For any other index it fails with
    [OutOfRange] and leaves the sandbox alone.  It fails for no other
    reason. *)
Theorem load_input_contract (st : Session) (i : nat) :
  (i < n_inputs st ->
   snd (load_input st i) = None /\
   (forall k, k < Z.to_nat MAIN_REGION_SIZE ->
      nth_error (main_region (sandbox (fst (load_input st i)))) k =
        Some (inputs st (Z.of_nat i * INPUT_SIZE + Z.of_nat k)%Z)) /\
   (forall k, k < Z.to_nat FAULTY_REGION_SIZE ->
      nth_error (faulty_region (sandbox (fst (load_input st i)))) k =
        Some (inputs st
                (Z.of_nat i * INPUT_SIZE + MAIN_REGION_SIZE + Z.of_nat k)%Z)) /\
   (forall k, k < Z.to_nat REG_INITIALIZATION_REGION_SIZE_ALIGNED ->
      nth_error (upper_overflow (sandbox (fst (load_input st i)))) k =
        Some (inputs st
                (Z.of_nat i * INPUT_SIZE + REG_INIT_OFFSET + Z.of_nat k)%Z)) /\
   Z.of_nat (List.length (main_region (sandbox (fst (load_input st i))))) =
     MAIN_REGION_SIZE /\
   Z.of_nat (List.length (faulty_region (sandbox (fst (load_input st i))))) =
     FAULTY_REGION_SIZE /\
   Z.of_nat (List.length (upper_overflow (sandbox (fst (load_input st i))))) =
     REG_INITIALIZATION_REGION_SIZE_ALIGNED /\
   Z.of_nat
     (List.length (main_region (sandbox (fst (load_input st i)))) +
      List.length (faulty_region (sandbox (fst (load_input st i)))) +
      List.length (upper_overflow (sandbox (fst (load_input st i))))) =
     INPUT_SIZE /\
   eviction_region (sandbox (fst (load_input st i))) =
     eviction_region (sandbox st) /\
   lower_overflow (sandbox (fst (load_input st i))) =
     lower_overflow (sandbox st) /\
   stored_rsp (sandbox (fst (load_input st i))) = stored_rsp (sandbox st) /\
   latest_measurement (sandbox (fst (load_input st i))) =
     latest_measurement (sandbox st)) /\
  (n_inputs st <= i ->
   snd (load_input st i) = Some OutOfRange /\
   sandbox (fst (load_input st i)) = sandbox st) /\
  (snd (load_input st i) = None <-> i < n_inputs st) /\
  (forall e, snd (load_input st i) = Some e -> e = OutOfRange) /\
  measurements (fst (load_input st i)) = measurements st.
Proof.
  destruct (after_read_keeps st) as (_ & Hsb & _ & _ & _ & Hms).
  split; [|split; [|split; [|split]]].
  - intros Hi. rewrite (load_input_in_range st i Hi).
    cbn [fst snd with_sandbox sandbox].
    destruct (install_input_vector st i (sandbox st))
      as (Hmain & Hfaulty & Hregs & Lm & Lf & Lu).
    split; [reflexivity|].
    split; [exact Hmain|]. split; [exact Hfaulty|]. split; [exact Hregs|].
    rewrite Lm, Lf, Lu.
    unfold INPUT_SIZE, MAIN_REGION_SIZE, FAULTY_REGION_SIZE,
      REG_INITIALIZATION_REGION_SIZE_ALIGNED.
    split; [lia|]. split; [lia|]. split; [lia|]. split; [lia|].
    repeat split.
  - intros Hi. rewrite (load_input_out_of_range st i Hi).
    cbn [fst snd]. split; [reflexivity | exact Hsb].
  - destruct (Nat.lt_ge_cases i (n_inputs st)) as [Hi|Hi].
    + rewrite (load_input_in_range st i Hi). cbn [snd]. tauto.
    + rewrite (load_input_out_of_range st i Hi). cbn [snd].
      split; [discriminate | lia].
  - intros e. destruct (Nat.lt_ge_cases i (n_inputs st)) as [Hi|Hi].
    + rewrite (load_input_in_range st i Hi). cbn [snd]. discriminate.
    + rewrite (load_input_out_of_range st i Hi). cbn [snd].
      intros [= <-]. reflexivity.
  - destruct (Nat.lt_ge_cases i (n_inputs st)) as [Hi|Hi].
    + rewrite (load_input_in_range st i Hi). cbn [fst with_sandbox measurements].
      exact Hms.
    + rewrite (load_input_out_of_range st i Hi). cbn [fst]. exact Hms.
Qed.

(** The second vector of the sample session goes in, each page from its own
    place; a third does not exist. *)
Lemma load_input_contract_witness :
  1 < n_inputs sample_session /\
  (snd (load_input sample_session 1) = None /\
   nth_error (main_region (sandbox (fst (load_input sample_session 1)))) 0 =
     Some x11 /\
   nth_error (faulty_region (sandbox (fst (load_input sample_session 1)))) 0 =
     Some x12 /\
   nth_error (upper_overflow (sandbox (fst (load_input sample_session 1)))) 0 =
     Some x13) /\
  snd (load_input sample_session 2) = Some OutOfRange.
Proof.
  assert (Hin : 1 < n_inputs sample_session) by (apply Nat.lt_succ_diag_r).
  split; [exact Hin|].
  pose proof (load_input_contract sample_session 1) as (Hok & _).
  pose proof (load_input_contract sample_session 2) as (_ & Hout & _).
  destruct (Hok Hin) as (Hnone & Hmain & Hfaulty & Hregs & _).
  assert (Hpage : 0 < Z.to_nat 4096) by lia.
  split.
  - split; [exact Hnone|].
    split; [|split].
    + exact (Hmain 0 Hpage).
    + exact (Hfaulty 0 Hpage).
    + exact (Hregs 0 Hpage).
  - exact (proj1 (Hout (Nat.le_refl 2))).
Defined.

(** *** Template loading *)

Section LoadTemplate.
Context `{Platform}.

Lemma select_template_unset (cfg : Config) :
  attack_template cfg = None -> select_template cfg = Err UnknownTemplate.
Proof.
  intros Hnone. unfold select_template. rewrite Hnone. reflexivity.
Qed.

Lemma select_template_error (cfg : Config) (e : error) :
  select_template cfg = Err e -> e = UnknownTemplate.
Proof.
  unfold select_template.
  destruct (attack_template cfg) as [name|].
  - destruct (String.eqb name prime_probe_name); [discriminate|].
    destruct (String.eqb name flush_reload_name); [discriminate|].
    intros [= <-]. reflexivity.
  - intros [= <-]. reflexivity.
Qed.

Lemma load_template_status (st : Session) (n : N) :
  snd (load_template st n) = 0%Z <->
  exists st', load_template_result st n = Ok st'.
Proof.
  unfold load_template.
  destruct (load_template_result st n) as [st'|e]; cbn [snd].
  - split; [eauto | reflexivity].
  - split.
    + intros H0. exfalso. exact (status_of_error_nonzero e H0).
    + intros [st' Hst']. discriminate.
Qed.

(** C5: a test case of [MAX_TEST_CASE_SIZE + 1] = 4097 bytes is rejected
    with [SizeViolation]; one of exactly [MAX_TEST_CASE_SIZE] = 4096 bytes
    is accepted once a template is selected; and for any size the call
    fails when the size exceeds [MAX_TEST_CASE_SIZE] or no template is
    selected. *)
Theorem load_template_size_limit (st : Session) :
  (Z.of_N 4097 = (MAX_TEST_CASE_SIZE + 1)%Z /\
   load_template_result st 4097 = Err SizeViolation /\
   load_template st 4097 = (st, status_of_error SizeViolation)) /\
  (Z.of_N 4096 = MAX_TEST_CASE_SIZE /\
   forall t, select_template (config st) = Ok t ->
     exists st',
       load_template st 4096 = (st', 0%Z) /\
       measurement_code st' =
         splice t (firstn (N.to_nat 4096) (test_case st))) /\
  (forall n : N,
     (MAX_TEST_CASE_SIZE < Z.of_N n)%Z \/ attack_template (config st) = None ->
     (exists e, load_template_result st n = Err e) /\
     snd (load_template st n) <> 0%Z /\
     fst (load_template st n) = st).
Proof.
  split; [|split].
  - repeat split; reflexivity.
  - split; [reflexivity|]. intros t Ht.
    unfold load_template, load_template_result.
    replace (MAX_TEST_CASE_SIZE <? Z.of_N 4096)%Z with false by reflexivity.
    rewrite Ht. cbn [bind]. eexists. split; reflexivity.
  - intros n Hbad.
    assert (Herr : exists e, load_template_result st n = Err e).
    { unfold load_template_result.
      destruct (Z.ltb_spec MAX_TEST_CASE_SIZE (Z.of_N n)) as [Hgt|Hle].
      - eexists; reflexivity.
      - destruct Hbad as [Hgt|Hunset]; [lia|].
        rewrite (select_template_unset _ Hunset). eexists; reflexivity. }
    destruct Herr as [e He]. split; [eauto|].
    unfold load_template. rewrite He. cbn [fst snd].
    split; [apply status_of_error_nonzero | reflexivity].
Qed.

End LoadTemplate.

(** With the flush-and-reload template selected, a full page is accepted. *)
Lemma load_template_size_limit_witness :
  select_template (config sample_session) = Ok template_l1d_flush_reload /\
  (exists st', load_template sample_session 4096 = (st', 0%Z)) /\
  ((MAX_TEST_CASE_SIZE < Z.of_N 5000)%Z /\
   snd (load_template sample_session 5000) <> 0%Z).
Proof.
  pose proof (load_template_size_limit sample_session) as (_ & (_ & Hok) & Hbad).
  split; [reflexivity|]. split.
  - destruct (Hok template_l1d_flush_reload eq_refl) as (st' & Hst' & _).
    exists st'. exact Hst'.
  - assert (Hgt : (MAX_TEST_CASE_SIZE < Z.of_N 5000)%Z) by reflexivity.
    split; [exact Hgt|].
    exact (proj1 (proj2 (Hbad 5000%N (or_introl Hgt)))).
Defined.

(** *** Measurement buffer *)

Lemma store_measurement_length (k : nat) (m : Measurement)
  (buf : list Measurement) :
  k <= List.length buf ->
  List.length (store_measurement k m buf) = Nat.max (List.length buf) (S k).
Proof.
  intros Hk. unfold store_measurement.
  rewrite length_app, length_firstn. cbn [List.length].
  rewrite length_skipn. lia.
Qed.

Lemma store_measurement_nth (k i : nat) (m : Measurement)
  (buf : list Measurement) :
  k <= List.length buf ->
  nth_error (store_measurement k m buf) i =
  if i =? k then Some m else nth_error buf i.
Proof.
  intros Hk. unfold store_measurement.
  assert (Hlen : List.length (firstn k buf) = k)
    by (rewrite length_firstn; lia).
  destruct (Nat.eqb_spec i k) as [->|Hne].
  - rewrite nth_error_app2 by lia. rewrite Hlen, Nat.sub_diag. reflexivity.
  - destruct (Nat.lt_ge_cases i k) as [Hlt|Hge].
    + rewrite nth_error_app1 by lia.
      rewrite nth_error_firstn.
      destruct (Nat.ltb_spec i k); [reflexivity | lia].
    + rewrite nth_error_app2 by lia. rewrite Hlen.
      destruct (i - k) as [|d] eqn:Hd; [lia|].
      cbn [nth_error]. rewrite nth_error_skipn.
      f_equal. lia.
Qed.

(** *** The volatile input count *)

Lemma count_at_now (st : Session) : count_at st 0 = n_inputs st.
Proof. reflexivity. Qed.

Lemma last_cons_default (p : nat) (l : list nat) (d : nat) :
  last (p :: l) d = last l p.
Proof.
  revert p d. induction l as [|q l IH]; intros p d; [reflexivity|].
  change (last (p :: q :: l) d) with (last (q :: l) d).
  rewrite (IH q d), (IH q p). reflexivity.
Qed.

Lemma count_at_after_read (st : Session) (k : nat) :
  count_at (after_read st) k = count_at st (S k).
Proof.
  unfold count_at, after_read. destruct (producer st) as [|p later] eqn:Hp.
  - rewrite Hp. cbn [nth last]. destruct k as [|k]; [reflexivity|].
    destruct k; reflexivity.
  - cbn [n_inputs producer]. rewrite last_cons_default.
    reflexivity.
Qed.

Lemma count_at_same (a b : Session) (k : nat) :
  n_inputs a = n_inputs b -> producer a = producer b ->
  count_at a k = count_at b k.
Proof.
  intros Hn Hp. unfold count_at. rewrite Hn, Hp. reflexivity.
Qed.

Lemma count_at_stable (st : Session) (k : nat) :
  producer st = [] -> count_at st k = n_inputs st.
Proof.
  intros Hp. unfold count_at. rewrite Hp.
  destruct k as [|k]; [reflexivity|]. destruct k; reflexivity.
Qed.

Lemma n_inputs_le_bound (st : Session) : n_inputs st <= count_bound st.
Proof.
  unfold count_bound. cbn [list_max fold_right]. apply Nat.le_max_l.
Qed.

Lemma count_bound_after_read (st : Session) :
  count_bound (after_read st) <= count_bound st.
Proof.
  unfold count_bound, after_read. destruct (producer st) as [|p later] eqn:Hp.
  - rewrite Hp. apply Nat.le_refl.
  - cbn [n_inputs producer]. cbn [list_max fold_right]. apply Nat.le_max_r.
Qed.

Lemma count_at_le_bound (st : Session) (k : nat) :
  count_at st k <= count_bound st.
Proof.
  revert st. induction k as [|k IH]; intros st.
  - rewrite count_at_now. apply n_inputs_le_bound.
  - rewrite <- count_at_after_read.
    eapply Nat.le_trans; [apply IH | apply count_bound_after_read].
Qed.

(** *** Measurement Orchestrator *)

Section Orchestrator.
Context `{Platform}.

Lemma same_setup_refl (a : Session) : same_setup a a.
Proof. repeat split. Qed.

Lemma same_setup_trans (a b c : Session) :
  same_setup a b -> same_setup b c -> same_setup a c.
Proof.
  unfold same_setup. intros (?&?&?&?) (?&?&?&?).
  repeat split; congruence.
Qed.

Lemma same_setup_after_read (st : Session) : same_setup (after_read st) st.
Proof.
  destruct (after_read_keeps st) as (Hc & _ & Ht & Hm & Hi & _).
  repeat split; assumption.
Qed.

Lemma observe_same_setup (t : template) (a b : Session) (i : nat)
  (sb : Sandbox) :
  same_setup a b -> observe t a i sb = observe t b i sb.
Proof.
  intros (Hc & _ & Hm & Hi). unfold observe, measure_input, input_vector.
  rewrite Hc, Hm, Hi. reflexivity.
Qed.

(** A pass for an index below the count the installer reads. *)
Lemma run_input_in_range (t : template) (i : nat) (st : Session) :
  i < n_inputs st ->
  exists st',
    run_input t i st =
      (st', Ok (negb (canaries_clear (fst (observe t st i (sandbox st)))))) /\
    same_setup st' st /\
    measurements st' =
      store_measurement i (snd (observe t st i (sandbox st))) (measurements st) /\
    sandbox st' =
      record_measurement (snd (observe t st i (sandbox st)))
        (fst (observe t st i (sandbox st))) /\
    n_inputs st' = n_inputs (after_read st) /\
    producer st' = producer (after_read st).
Proof.
  intros Hi. unfold run_input. rewrite (load_input_in_range st i Hi).
  unfold observe, measure_input, input_vector, with_sandbox.
  cbn [config sandbox test_case measurement_code inputs n_inputs measurements
       producer].
  destruct (after_read_keeps st) as (Hc & _ & Ht & Hm & Hin & Hms).
  rewrite Hc, Ht, Hm, Hin, Hms.
  eexists. split; [reflexivity|].
  split; [repeat split|]. split; [reflexivity|]. split; [reflexivity|].
  split; reflexivity.
Qed.

(** A pass for an index the installer finds out of range. *)
Lemma run_input_out_of_range (t : template) (i : nat) (st : Session) :
  n_inputs st <= i -> run_input t i st = (after_read st, Err OutOfRange).
Proof.
  intros Hi. unfold run_input. rewrite (load_input_out_of_range st i Hi).
  reflexivity.
Qed.

(** Whatever the outcome of a pass, the installer has read the count once,
    and the only error is [OutOfRange]. *)
Lemma run_input_reads_once (t : template) (i : nat) (st : Session) :
  n_inputs (fst (run_input t i st)) = n_inputs (after_read st) /\
  producer (fst (run_input t i st)) = producer (after_read st) /\
  (forall e, snd (run_input t i st) = Err e -> e = OutOfRange).
Proof.
  destruct (Nat.lt_ge_cases i (n_inputs st)) as [Hi|Hi].
  - destruct (run_input_in_range t i st Hi) as (st' & -> & _ & _ & _ & Hn & Hp).
    cbn [fst snd]. split; [exact Hn|]. split; [exact Hp|]. discriminate.
  - rewrite (run_input_out_of_range t i st Hi). cbn [fst snd].
    split; [reflexivity|]. split; [reflexivity|]. intros e [= <-]. reflexivity.
Qed.

(** The loop ends within the fuel [trace_outcome] gives it, and when it
    fails it fails with one of two errors. *)
Lemma trace_loop_returns (t : template) (fuel : nat) :
  forall (i : nat) (st : Session) (c : bool),
    count_bound st - i < fuel ->
    exists st' r,
      trace_loop t fuel i st c = Some (st', r) /\
      (r = None \/ r = Some CorruptedSandbox \/ r = Some OutOfRange).
Proof.
  induction fuel as [|fuel IH]; intros i st c Hfuel; [lia|].
  cbn [trace_loop].
  destruct (Nat.ltb_spec i (n_inputs st)) as [Hi|Hi].
  - pose proof (n_inputs_le_bound st) as Hn.
    destruct (run_input_reads_once t i (after_read st)) as (Hn1 & Hp1 & Herr).
    destruct (run_input t i (after_read st)) as [st1 [c1|e]] eqn:Hrun;
      cbn [fst snd] in *.
    + apply IH.
      assert (count_bound st1 <= count_bound st).
      { eapply Nat.le_trans; [|apply count_bound_after_read].
        eapply Nat.le_trans; [|apply count_bound_after_read].
        unfold count_bound. rewrite Hn1, Hp1. apply Nat.le_refl. }
      lia.
    + do 2 eexists. split; [reflexivity|].
      right; right. rewrite (Herr e eq_refl). reflexivity.
  - do 2 eexists. split; [reflexivity|]. destruct c; auto.
Qed.

(** [d] passes from index [i] on, each finding its input in range at both
    reads of the count: entry [j] of the buffer receives the measurement of
    the run on input [j], no other entry is touched, and the loop goes on
    from index [i + d]. *)
Lemma trace_loop_prefix (t : template) (st0 : Session) (d : nat) :
  forall (i : nat) (st : Session) (c : bool) (fuel : nat),
    same_setup st st0 ->
    sandbox st = sandbox_at t st0 i ->
    (forall k, count_at st k = count_at st0 (2 * i + k)) ->
    i <= List.length (measurements st) ->
    (forall j, i <= j < i + d ->
       j < count_at st0 (2 * j) /\ j < count_at st0 (2 * j + 1)) ->
    exists st_d c_d,
      trace_loop t (d + fuel) i st c = trace_loop t fuel (i + d) st_d c_d /\
      same_setup st_d st0 /\
      sandbox st_d = sandbox_at t st0 (i + d) /\
      (forall k, count_at st_d k = count_at st0 (2 * (i + d) + k)) /\
      (c_d = true <->
       c = true \/ exists j, i <= j < i + d /\ corrupts t st0 j = true) /\
      List.length (measurements st_d) =
        Nat.max (List.length (measurements st)) (i + d) /\
      (forall j, j < i \/ i + d <= j ->
         nth_error (measurements st_d) j = nth_error (measurements st) j) /\
      (forall j, i <= j < i + d ->
         nth_error (measurements st_d) j = Some (measurement_of t st0 j)).
Proof.
  induction d as [|d IH]; intros i st c fuel Hs0 Hsb Hcnt Hlen Hgood.
  - exists st, c. rewrite Nat.add_0_r. cbn [Nat.add].
    split; [reflexivity|]. split; [exact Hs0|]. split; [exact Hsb|].
    split; [exact Hcnt|].
    split.
    { split; [auto|]. intros [Hc|(j & Hj & _)]; [exact Hc | lia]. }
    split; [lia|]. split; [reflexivity|]. intros j Hj. lia.
  - cbn [Nat.add trace_loop].
    destruct (Hgood i) as [Hloop Hinst]; [lia|].
    assert (Hn : i < n_inputs st).
    { rewrite <- count_at_now, Hcnt, Nat.add_0_r. exact Hloop. }
    destruct (Nat.ltb_spec i (n_inputs st)) as [_|Hge]; [|lia].
    assert (Hn1 : i < n_inputs (after_read st)).
    { rewrite <- count_at_now, count_at_after_read, Hcnt. exact Hinst. }
    destruct (run_input_in_range t i (after_read st) Hn1)
      as (st1 & Hrun & Hs1 & Hm1 & Hsb1 & Hn2 & Hp2).
    destruct (after_read_keeps st) as (_ & Hsbr & _ & _ & _ & Hmsr).
    assert (Hsr0 : same_setup (after_read st) st0)
      by (eapply same_setup_trans; [apply same_setup_after_read | exact Hs0]).
    rewrite (observe_same_setup t (after_read st) st0 i _ Hsr0), Hsbr, Hsb
      in Hrun, Hm1, Hsb1.
    rewrite Hmsr in Hm1.
    fold (measurement_of t st0 i) in Hm1.
    fold (corrupts t st0 i) in Hrun.
    rewrite Hrun.
    assert (Hs10 : same_setup st1 st0)
      by (eapply same_setup_trans; eassumption).
    assert (Hcnt1 : forall k, count_at st1 k = count_at st0 (2 * S i + k)).
    { intros k.
      rewrite (count_at_same st1 (after_read (after_read st)) k Hn2 Hp2).
      rewrite !count_at_after_read, Hcnt. f_equal. lia. }
    assert (Hlen1 : List.length (measurements st1) =
                    Nat.max (List.length (measurements st)) (S i)).
    { rewrite Hm1. apply store_measurement_length, Hlen. }
    assert (Hk1 : S i <= List.length (measurements st1)) by lia.
    assert (Hgood1 : forall j, S i <= j < S i + d ->
              j < count_at st0 (2 * j) /\ j < count_at st0 (2 * j + 1))
      by (intros j Hj; apply Hgood; lia).
    destruct (IH (S i) st1 (c || corrupts t st0 i)%bool fuel
                Hs10 Hsb1 Hcnt1 Hk1 Hgood1)
      as (st_d & c_d & Hgo & Hs & Hsb' & Hcnt' & Hc & Hlen' & Hout & Hin).
    exists st_d, c_d.
    replace (i + S d) with (S i + d) by lia.
    split; [exact Hgo|]. split; [exact Hs|]. split; [exact Hsb'|].
    split; [exact Hcnt'|].
    split.
    { rewrite Hc, orb_true_iff. split.
      - intros [[Hc0|Hck]|(j & Hj & Hcj)].
        + left; exact Hc0.
        + right. exists i. split; [lia | exact Hck].
        + right. exists j. split; [lia | exact Hcj].
      - intros [Hc0|(j & Hj & Hcj)].
        + left; left; exact Hc0.
        + destruct (Nat.eq_dec j i) as [->|Hne].
          * left; right; exact Hcj.
          * right. exists j. split; [lia | exact Hcj]. }
    split; [lia|].
    split.
    + intros j Hj. rewrite Hout by lia. rewrite Hm1.
      rewrite store_measurement_nth by exact Hlen.
      destruct (Nat.eqb_spec j i); [lia | reflexivity].
    + intros j Hj. destruct (Nat.eq_dec j i) as [->|Hne].
      * rewrite Hout by lia. rewrite Hm1.
        rewrite store_measurement_nth by exact Hlen.
        rewrite Nat.eqb_refl. reflexivity.
      * apply Hin. lia.
Qed.

End Orchestrator.

Section TraceTestCase.
Context `{Platform}.

Lemma status_code_zero (r : option error) :
  status_code r = 0%Z <-> r = None.
Proof.
  destruct r as [e|]; cbn [status_code]; split; intros Hr.
  - exfalso. exact (status_of_error_nonzero e Hr).
  - discriminate.
  - reflexivity.
  - reflexivity.
Qed.

Lemma trace_outcome_errors (st : Session) (e : error) :
  snd (trace_outcome st) = Some e ->
  e = UnknownTemplate \/ e = CorruptedSandbox \/ e = OutOfRange.
Proof.
  unfold trace_outcome.
  destruct (select_template (config st)) as [t|e'] eqn:Ht.
  - destruct (trace_loop_returns t (S (count_bound st)) 0 st false)
      as (st' & r & -> & Hr); [lia|].
    cbn [snd]. intros ->.
    destruct Hr as [Hr|[Hr|Hr]]; [discriminate| |];
      injection Hr as <-; auto.
  - cbn [snd]. intros [= <-]. left. eapply select_template_error, Ht.
Qed.

(** What the run on input [i] is given: the register seeds and the two
    input pages of vector [i], each byte from its own place in the input
    memory, and zeroed canaries. *)
Lemma measurement_of_input (t : template) (st : Session) (i : nat) :
  exists regs sb,
    measurement_of t st i =
      snd (measure (config st) t (measurement_code st) regs sb) /\
    (forall k, k < Z.to_nat REG_INITIALIZATION_REGION_SIZE_ALIGNED ->
       nth_error regs k =
         Some (inputs st
                 (Z.of_nat i * INPUT_SIZE + REG_INIT_OFFSET + Z.of_nat k)%Z)) /\
    List.length regs = Z.to_nat REG_INITIALIZATION_REGION_SIZE_ALIGNED /\
    (forall k, k < Z.to_nat MAIN_REGION_SIZE ->
       nth_error (main_region sb) k =
         Some (inputs st (Z.of_nat i * INPUT_SIZE + Z.of_nat k)%Z)) /\
    List.length (main_region sb) = Z.to_nat MAIN_REGION_SIZE /\
    (forall k, k < Z.to_nat FAULTY_REGION_SIZE ->
       nth_error (faulty_region sb) k =
         Some (inputs st
                 (Z.of_nat i * INPUT_SIZE + MAIN_REGION_SIZE + Z.of_nat k)%Z)) /\
    List.length (faulty_region sb) = Z.to_nat FAULTY_REGION_SIZE /\
    lower_overflow sb = repeat x00 (Z.to_nat OVERFLOW_REGION_SIZE) /\
    upper_overflow sb = repeat x00 (Z.to_nat OVERFLOW_REGION_SIZE) /\
    eviction_region sb = eviction_region (sandbox_at t st i).
Proof.
  pose proof (install_input_vector st i (sandbox_at t st i)) as Hinst.
  cbv zeta in Hinst. unfold install in Hinst.
  cbn [main_region faulty_region upper_overflow] in Hinst.
  destruct Hinst as (Hmain & Hfaulty & Hregs & Lm & Lf & Lu).
  exists (register_seed (input_vector st i)),
         (zero_canaries (install (input_vector st i) (sandbox_at t st i))).
  unfold zero_canaries, install, zero_page.
  cbn [main_region faulty_region upper_overflow lower_overflow eviction_region].
  split; [reflexivity|].
  split; [exact Hregs|]. split; [exact Lu|].
  split; [exact Hmain|]. split; [exact Lm|].
  split; [exact Hfaulty|]. split; [exact Lf|].
  split; [reflexivity|]. split; reflexivity.
Qed.

(** After [N] passes that find their input at both reads of the count, the
    run ends in one of two ways. *)
Lemma trace_outcome_after (st : Session) (t : template) (N : nat) :
  select_template (config st) = Ok t ->
  (forall j, j < N ->
     j < count_at st (2 * j) /\ j < count_at st (2 * j + 1)) ->
  count_at st (2 * N) <= N \/ count_at st (2 * N + 1) <= N ->
  exists st' c,
    fst (trace_outcome st) = st' /\
    (c = true <-> exists j, j < N /\ corrupts t st j = true) /\
    (count_at st (2 * N) <= N ->
     snd (trace_outcome st) = if c then Some CorruptedSandbox else None) /\
    (N < count_at st (2 * N) -> snd (trace_outcome st) = Some OutOfRange) /\
    List.length (measurements st') =
      Nat.max (List.length (measurements st)) N /\
    (forall j, N <= j ->
       nth_error (measurements st') j = nth_error (measurements st) j) /\
    (forall j, j < N ->
       nth_error (measurements st') j = Some (measurement_of t st j)).
Proof.
  intros Ht Hgood Hend.
  assert (HN : N <= count_bound st).
  { destruct N as [|N]; [lia|].
    destruct (Hgood N) as [Hl _]; [lia|].
    pose proof (count_at_le_bound st (2 * N)). lia. }
  destruct (trace_loop_prefix t st N 0 st false (S (count_bound st - N)))
    as (st_d & c_d & Hgo & _ & _ & Hcnt & Hc & Hlen & Hout & Hin).
  { apply same_setup_refl. }
  { reflexivity. }
  { intros k. reflexivity. }
  { lia. }
  { intros j Hj. apply Hgood. lia. }
  cbn [Nat.add] in *.
  unfold trace_outcome. rewrite Ht.
  replace (S (count_bound st)) with (N + S (count_bound st - N)) by lia.
  rewrite Hgo. cbn [trace_loop].
  assert (Hn : n_inputs st_d = count_at st (2 * N))
    by (rewrite <- count_at_now, Hcnt; f_equal; lia).
  assert (Hn1 : n_inputs (after_read st_d) = count_at st (2 * N + 1))
    by (rewrite <- count_at_now, count_at_after_read, Hcnt; reflexivity).
  destruct (after_read_keeps st_d) as (_ & _ & _ & _ & _ & Hms).
  assert (Hc' : c_d = true <-> exists j, j < N /\ corrupts t st j = true).
  { rewrite Hc. split.
    - intros [Hf|(j & Hj & Hcj)]; [discriminate|].
      exists j. split; [lia | exact Hcj].
    - intros (j & Hj & Hcj). right. exists j. split; [lia | exact Hcj]. }
  destruct (Nat.ltb_spec N (n_inputs st_d)) as [Hlt|Hge].
  - rewrite run_input_out_of_range by lia.
    exists (after_read (after_read st_d)), c_d. cbn [fst snd].
    destruct (after_read_keeps (after_read st_d)) as (_ & _ & _ & _ & _ & Hms1).
    rewrite Hms1, Hms.
    split; [reflexivity|]. split; [exact Hc'|].
    split; [intros Hle; lia|]. split; [reflexivity|].
    split; [lia|].
    split; [intros j Hj; apply Hout; right; exact Hj|].
    intros j Hj. apply Hin. lia.
  - exists (after_read st_d), c_d. cbn [fst snd]. rewrite Hms.
    split; [reflexivity|]. split; [exact Hc'|].
    split; [reflexivity|]. split; [intros Hlt; lia|].
    split; [lia|].
    split; [intros j Hj; apply Hout; right; exact Hj|].
    intros j Hj. apply Hin. lia.
Qed.

(** C4: [trace_test_case] returns 0 exactly when the run succeeds and a
    non-zero status exactly when it fails with [UnknownTemplate],
    [CorruptedSandbox] or [OutOfRange]; an unknown template aborts before
    any run; the loop always ends.  With a template selected, as long as
    inputs [0 .. N-1] are in range each time the count is read, entry [i]
    of the measurement buffer holds, for every [i < N], the measurement of
    the run on the [i]-th input vector, whose bytes are those of that
    vector in the input memory; no other entry is written.  If the loop
    then finds no input [N], the run reports a corrupted sandbox exactly
    when some run left a canary non-zero, and success otherwise; if the
    installer finds input [N] gone, the run fails with [OutOfRange].  With
    a count that stays put, [N] is the input count. *)
Theorem trace_test_case_one_measurement_per_input (st : Session) :
  (snd (trace_test_case st) = 0%Z <-> snd (trace_outcome st) = None) /\
  (snd (trace_test_case st) <> 0%Z <->
   snd (trace_outcome st) = Some UnknownTemplate \/
   snd (trace_outcome st) = Some CorruptedSandbox \/
   snd (trace_outcome st) = Some OutOfRange) /\
  (forall e, select_template (config st) = Err e ->
     trace_test_case st = (st, status_of_error UnknownTemplate)) /\
  (forall t, exists r,
     trace_loop t (S (count_bound st)) 0 st false = Some r) /\
  (forall t N, select_template (config st) = Ok t ->
     (forall j, j < N ->
        j < count_at st (2 * j) /\ j < count_at st (2 * j + 1)) ->
     count_at st (2 * N) <= N \/ count_at st (2 * N + 1) <= N ->
     (forall i, i < N ->
        nth_error (measurements (fst (trace_test_case st))) i =
          Some (measurement_of t st i)) /\
     firstn N (measurements (fst (trace_test_case st))) =
       map (measurement_of t st) (seq 0 N) /\
     (forall i, N <= i ->
        nth_error (measurements (fst (trace_test_case st))) i =
          nth_error (measurements st) i) /\
     List.length (measurements (fst (trace_test_case st))) =
       Nat.max (List.length (measurements st)) N /\
     (count_at st (2 * N) <= N ->
      (snd (trace_outcome st) = Some CorruptedSandbox <->
       exists i, i < N /\ corrupts t st i = true) /\
      (snd (trace_outcome st) = None <->
       forall i, i < N -> corrupts t st i = false)) /\
     (N < count_at st (2 * N) ->
      snd (trace_outcome st) = Some OutOfRange /\
      snd (trace_test_case st) <> 0%Z)) /\
  (forall t, select_template (config st) = Ok t -> producer st = [] ->
     (forall i, i < n_inputs st ->
        nth_error (measurements (fst (trace_test_case st))) i =
          Some (measurement_of t st i)) /\
     firstn (n_inputs st) (measurements (fst (trace_test_case st))) =
       map (measurement_of t st) (seq 0 (n_inputs st)) /\
     (forall i, n_inputs st <= i ->
        nth_error (measurements (fst (trace_test_case st))) i =
          nth_error (measurements st) i) /\
     snd (trace_outcome st) <> Some OutOfRange) /\
  (forall t i, exists regs sb,
     measurement_of t st i =
       snd (measure (config st) t (measurement_code st) regs sb) /\
     (forall k, k < Z.to_nat REG_INITIALIZATION_REGION_SIZE_ALIGNED ->
        nth_error regs k =
          Some (inputs st
                  (Z.of_nat i * INPUT_SIZE + REG_INIT_OFFSET + Z.of_nat k)%Z)) /\
     List.length regs = Z.to_nat REG_INITIALIZATION_REGION_SIZE_ALIGNED /\
     (forall k, k < Z.to_nat MAIN_REGION_SIZE ->
        nth_error (main_region sb) k =
          Some (inputs st (Z.of_nat i * INPUT_SIZE + Z.of_nat k)%Z)) /\
     List.length (main_region sb) = Z.to_nat MAIN_REGION_SIZE /\
     (forall k, k < Z.to_nat FAULTY_REGION_SIZE ->
        nth_error (faulty_region sb) k =
          Some (inputs st
                  (Z.of_nat i * INPUT_SIZE + MAIN_REGION_SIZE + Z.of_nat k)%Z)) /\
     List.length (faulty_region sb) = Z.to_nat FAULTY_REGION_SIZE /\
     lower_overflow sb = repeat x00 (Z.to_nat OVERFLOW_REGION_SIZE) /\
     upper_overflow sb = repeat x00 (Z.to_nat OVERFLOW_REGION_SIZE) /\
     eviction_region sb = eviction_region (sandbox_at t st i)).
Proof.
  assert (Hruns : forall t N, select_template (config st) = Ok t ->
     (forall j, j < N ->
        j < count_at st (2 * j) /\ j < count_at st (2 * j + 1)) ->
     count_at st (2 * N) <= N \/ count_at st (2 * N + 1) <= N ->
     (forall i, i < N ->
        nth_error (measurements (fst (trace_test_case st))) i =
          Some (measurement_of t st i)) /\
     firstn N (measurements (fst (trace_test_case st))) =
       map (measurement_of t st) (seq 0 N) /\
     (forall i, N <= i ->
        nth_error (measurements (fst (trace_test_case st))) i =
          nth_error (measurements st) i) /\
     List.length (measurements (fst (trace_test_case st))) =
       Nat.max (List.length (measurements st)) N /\
     (count_at st (2 * N) <= N ->
      (snd (trace_outcome st) = Some CorruptedSandbox <->
       exists i, i < N /\ corrupts t st i = true) /\
      (snd (trace_outcome st) = None <->
       forall i, i < N -> corrupts t st i = false)) /\
     (N < count_at st (2 * N) ->
      snd (trace_outcome st) = Some OutOfRange /\
      snd (trace_test_case st) <> 0%Z)).
  { intros t N Ht Hgood Hend.
    destruct (trace_outcome_after st t N Ht Hgood Hend)
      as (st' & c & Hfst & Hc & Hnormal & Habort & Hlen & Hout & Hin).
    unfold trace_test_case. cbn [fst snd]. rewrite Hfst.
    split; [exact Hin|].
    split.
    { apply nth_error_ext. intros i.
      rewrite nth_error_firstn, nth_error_map, nth_error_seq.
      destruct (Nat.ltb_spec i N) as [Hi|Hi]; [|reflexivity].
      rewrite Hin by lia. reflexivity. }
    split; [exact Hout|]. split; [exact Hlen|].
    split.
    - intros Hle. rewrite (Hnormal Hle). split.
      + rewrite <- Hc. destruct c; split; congruence.
      + split.
        * intros Hr i Hi. destruct (corrupts t st i) eqn:Hci; [|reflexivity].
          assert (Hx : c = true) by (apply Hc; exists i; auto).
          rewrite Hx in Hr. discriminate.
        * intros Hall. destruct c; [|reflexivity].
          destruct (proj1 Hc eq_refl) as (i & Hi & Hci).
          rewrite (Hall i Hi) in Hci. discriminate.
    - intros Hlt. rewrite (Habort Hlt). split; [reflexivity|].
      cbn [status_code]. apply status_of_error_nonzero. }
  split; [apply status_code_zero|].
  split.
  { unfold trace_test_case. cbn [snd]. rewrite status_code_zero. split.
    - intros Hr. destruct (snd (trace_outcome st)) as [e|] eqn:He;
        [|congruence].
      destruct (trace_outcome_errors st e He) as [-> | [-> | ->]]; auto.
    - intros [Hr|[Hr|Hr]]; rewrite Hr; discriminate. }
  split.
  { intros e He. unfold trace_test_case, trace_outcome. rewrite He.
    cbn [fst snd status_code].
    rewrite (select_template_error _ _ He). reflexivity. }
  split.
  { intros t.
    destruct (trace_loop_returns t (S (count_bound st)) 0 st false)
      as (st' & r & Hr & _); [lia|].
    eexists. exact Hr. }
  split; [exact Hruns|].
  split.
  { intros t Ht Hp.
    assert (Hcnt : forall k, count_at st k = n_inputs st)
      by (intros k; apply count_at_stable, Hp).
    destruct (Hruns t (n_inputs st) Ht) as (Hin & Hfirst & Hout & _ & Hnormal & _).
    { intros j Hj. rewrite !Hcnt. split; exact Hj. }
    { left. rewrite Hcnt. apply Nat.le_refl. }
    split; [exact Hin|]. split; [exact Hfirst|]. split; [exact Hout|].
    intros Hoor.
    destruct (trace_outcome_after st t (n_inputs st) Ht)
      as (st' & c & _ & _ & Hn & _).
    { intros j Hj. rewrite !Hcnt. split; exact Hj. }
    { left. rewrite Hcnt. apply Nat.le_refl. }
    rewrite Hn in Hoor by (rewrite Hcnt; apply Nat.le_refl).
    destruct c; discriminate. }
  intros t i. apply measurement_of_input.
Qed.

End TraceTestCase.

(** With a count that stays at 2 the buffer receives the measurements of
    the two sample inputs, in order; when the producer takes the second
    input back between the loop's check and the installer's, the run keeps
    the first measurement and fails with [OutOfRange]. *)
Lemma trace_test_case_one_measurement_per_input_witness :
  (select_template (config sample_session) = Ok template_l1d_flush_reload /\
   producer sample_session = []) /\
  firstn (n_inputs sample_session)
    (measurements (fst (trace_test_case sample_session))) =
    [ mkMeasurement [1%Z] [2%Z; 3%Z; 1%Z];
      mkMeasurement [17%Z] [18%Z; 19%Z; 1%Z] ] /\
  ((forall j, j < 1 ->
      j < count_at shrinking_session (2 * j) /\
      j < count_at shrinking_session (2 * j + 1)) /\
   1 < count_at shrinking_session (2 * 1) /\
   count_at shrinking_session (2 * 1 + 1) <= 1) /\
  snd (trace_outcome shrinking_session) = Some OutOfRange /\
  nth_error (measurements (fst (trace_test_case shrinking_session))) 0 =
    Some (mkMeasurement [1%Z] [2%Z; 3%Z; 1%Z]) /\
  nth_error (measurements (fst (trace_test_case shrinking_session))) 1 = None.
Proof.
  pose proof (trace_test_case_one_measurement_per_input sample_session)
    as (_ & _ & _ & _ & _ & Hstable & _).
  pose proof (trace_test_case_one_measurement_per_input shrinking_session)
    as (_ & _ & _ & _ & Hruns & _).
  assert (Hgood : forall j, j < 1 ->
            j < count_at shrinking_session (2 * j) /\
            j < count_at shrinking_session (2 * j + 1)).
  { intros j Hj. assert (j = 0) as -> by lia. split; apply Nat.lt_0_2. }
  assert (Hstill : 1 < count_at shrinking_session (2 * 1))
    by apply Nat.lt_succ_diag_r.
  assert (Hgone : count_at shrinking_session (2 * 1 + 1) <= 1)
    by apply Nat.le_refl.
  destruct (Hstable template_l1d_flush_reload eq_refl eq_refl)
    as (_ & Hfirst & _).
  destruct (Hruns template_l1d_flush_reload 1 eq_refl Hgood (or_intror Hgone))
    as (Hin & _ & Hout & _ & _ & Habort).
  split; [split; reflexivity|].
  split.
  { etransitivity; [exact Hfirst|]. vm_compute. reflexivity. }
  split; [split; [exact Hgood | split; assumption]|].
  split; [exact (proj1 (Habort Hstill))|].
  split.
  - etransitivity; [exact (Hin 0 Nat.lt_0_1)|]. vm_compute. reflexivity.
  - etransitivity; [exact (Hout 1 (Nat.le_refl 1))|]. reflexivity.
Defined.

(** ** More on the header's layout and geometry *)

Local Open Scope Z_scope.
Local Open Scope string_scope.

(** [struct Measurement] is [HTRACE_WIDTH + NUM_PFC] 64-bit words with no
    padding: [htrace] at offset 0, [pfc] right after it, 32 bytes in all,
    aligned to 8. *)
Theorem Measurement_layout :
  Layout.offsetof Measurement_members "htrace" = Some 0 /\
  Layout.offsetof Measurement_members "pfc" = Some (8 * HTRACE_WIDTH) /\
  Layout.adjacent Measurement_members "htrace" "pfc" /\
  Layout.sizeof Measurement_members = 8 * (HTRACE_WIDTH + NUM_PFC) /\
  Layout.sizeof Measurement_members = 32 /\
  Layout.alignof Measurement_members = 8.
Proof.
  repeat split; try reflexivity.
  exists 0, 8. repeat split; reflexivity.
Qed.

Lemma Sandbox_end_of (c : CacheConfig) :
  Layout.end_of 0 (Sandbox_members c) = EVICT_REGION_SIZE c + 16424.
Proof.
  unfold Sandbox_members, Layout.char_array, Layout.uint64_array.
  rewrite Measurement_sizeof, Measurement_alignof.
  cbn [Layout.end_of Layout.m_align Layout.m_size].
  rewrite !align_up_byte.
  unfold OVERFLOW_REGION_SIZE, MAIN_REGION_SIZE, FAULTY_REGION_SIZE.
  destruct (L1D_SIZE_word_multiple c) as [q Hq].
  rewrite (align_up_multiple
             (0 + EVICT_REGION_SIZE c + 4096 + 4096 + 4096 + 4096) 8);
    [|lia|exists (q + 2048); unfold EVICT_REGION_SIZE; lia].
  rewrite (align_up_multiple _ 8);
    [|lia|exists (q + 2049); unfold EVICT_REGION_SIZE; lia].
  lia.
Qed.

Lemma Sandbox_alignof (c : CacheConfig) :
  Layout.alignof (Sandbox_members c) = 8.
Proof. reflexivity. Qed.

Lemma Sandbox_sizeof (c : CacheConfig) :
  Layout.sizeof (Sandbox_members c) = L1D_SIZE c + 16424.
Proof.
  unfold Layout.sizeof. rewrite Sandbox_end_of, Sandbox_alignof.
  destruct (L1D_SIZE_word_multiple c) as [q Hq].
  apply align_up_multiple; [lia|].
  exists (q + 2053). unfold EVICT_REGION_SIZE. lia.
Qed.

(** Whatever the cache configuration, [struct Sandbox] has no padding: its
    size is the cache size plus the four 4096-byte regions, the 8 bytes of
    [stored_rsp] and the measurement, [latest_measurement] ends where the
    struct ends, and the struct is aligned to 8. *)
Theorem Sandbox_size_unpadded (c : CacheConfig) :
  Layout.sizeof (Sandbox_members c) =
    L1D_SIZE c + 4 * 4096 + 8 + Layout.sizeof Measurement_members /\
  Layout.sizeof (Sandbox_members c) =
    fold_right Z.add 0 (map Layout.m_size (Sandbox_members c)) /\
  Layout.offsetof (Sandbox_members c) "latest_measurement" =
    Some (Layout.sizeof (Sandbox_members c) -
          Layout.sizeof Measurement_members) /\
  Layout.alignof (Sandbox_members c) = 8.
Proof.
  rewrite Sandbox_sizeof, Measurement_sizeof.
  destruct (Sandbox_offsetof c) as (_ & _ & _ & _ & _ & _ & Hx).
  split; [lia|]. split; [|split; [|reflexivity]].
  - unfold Sandbox_members, Layout.char_array, Layout.uint64_array.
    rewrite Measurement_sizeof.
    cbn [map fold_right Layout.m_size].
    unfold EVICT_REGION_SIZE, OVERFLOW_REGION_SIZE, MAIN_REGION_SIZE,
      FAULTY_REGION_SIZE. lia.
  - rewrite Hx. unfold EVICT_REGION_SIZE. f_equal. lia.
Qed.

(** For a cache size that fits in [int], the sandbox fits in
    [WORKING_MEMORY_SIZE] bytes exactly when the cache is at most 1032152
    bytes; with a positive [L1D_SIZE_K] whose size in bytes fits in [int],
    exactly when [L1D_SIZE_K] is at most 1007. *)
Theorem Sandbox_fits_working_memory_iff :
  (forall c,
     Int32.fits (L1D_SIZE c) ->
     compiled_L1D_SIZE c = L1D_SIZE c /\
     (Layout.sizeof (Sandbox_members c) <= WORKING_MEMORY_SIZE <->
      L1D_SIZE c <= 1032152)) /\
  (forall a k,
     0 < k -> Int32.fits (k * 1024) ->
     compiled_L1D_SIZE (mkCacheConfig a (Some k)) = k * 1024 /\
     (Layout.sizeof (Sandbox_members (mkCacheConfig a (Some k))) <=
        WORKING_MEMORY_SIZE <->
      k <= 1007)).
Proof.
  split.
  - intros c Hc. split; [apply compiled_L1D_SIZE_fits, Hc|].
    rewrite Sandbox_sizeof. unfold WORKING_MEMORY_SIZE. lia.
  - intros a k Hk Hfit. split.
    + unfold compiled_L1D_SIZE. cbn [defined_L1D_SIZE_K].
      apply wrap_fits, Hfit.
    + rewrite Sandbox_sizeof. unfold WORKING_MEMORY_SIZE, L1D_SIZE.
      cbn [defined_L1D_SIZE_K]. lia.
Qed.

(** 1007 kilobytes fit. *)
Lemma Sandbox_fits_working_memory_iff_witness :
  (0 < 1007 /\ Int32.fits (1007 * 1024)) /\
  Layout.sizeof (Sandbox_members cache_1007k) <= WORKING_MEMORY_SIZE.
Proof.
  assert (Hk : 0 < 1007) by reflexivity.
  assert (Hfit : Int32.fits (1007 * 1024)) by (split; discriminate).
  split; [split; assumption|].
  pose proof (proj2 Sandbox_fits_working_memory_iff None 1007 Hk Hfit)
    as (_ & Hiff).
  apply Hiff. discriminate.
Defined.

(** With a positive associativity and a non-negative cache size, the ways
    of [L1D_CONFLICT_DISTANCE] bytes cover the eviction region up to a
    remainder smaller than the associativity, the remainder of the
    division. *)
Theorem conflict_distance_truncates (c : CacheConfig) :
  0 < L1D_ASSOCIATIVITY c -> 0 <= L1D_SIZE c ->
  0 <= L1D_CONFLICT_DISTANCE c /\
  L1D_ASSOCIATIVITY c * L1D_CONFLICT_DISTANCE c <= EVICT_REGION_SIZE c /\
  EVICT_REGION_SIZE c <
    L1D_ASSOCIATIVITY c * L1D_CONFLICT_DISTANCE c + L1D_ASSOCIATIVITY c /\
  EVICT_REGION_SIZE c - L1D_ASSOCIATIVITY c * L1D_CONFLICT_DISTANCE c =
    Z.rem (L1D_SIZE c) (L1D_ASSOCIATIVITY c).
Proof.
  intros Ha Hs. unfold L1D_CONFLICT_DISTANCE, EVICT_REGION_SIZE.
  set (s := L1D_SIZE c) in *. set (a := L1D_ASSOCIATIVITY c) in *.
  pose proof (Z.quot_rem' s a) as Hqr.
  pose proof (Z.rem_bound_pos s a Hs Ha) as Hrem.
  assert (0 <= Z.quot s a) by (apply Z.quot_pos; lia).
  repeat split; lia.
Qed.

(** Three ways of 10922 bytes leave 2 bytes of a 32768-byte cache over. *)
Lemma conflict_distance_truncates_witness :
  (0 < L1D_ASSOCIATIVITY three_way_32k /\ 0 <= L1D_SIZE three_way_32k) /\
  L1D_CONFLICT_DISTANCE three_way_32k = 10922 /\
  EVICT_REGION_SIZE three_way_32k -
    L1D_ASSOCIATIVITY three_way_32k * L1D_CONFLICT_DISTANCE three_way_32k =
    Z.rem (L1D_SIZE three_way_32k) (L1D_ASSOCIATIVITY three_way_32k).
Proof.
  assert (Ha : 0 < L1D_ASSOCIATIVITY three_way_32k) by reflexivity.
  assert (Hs : 0 <= L1D_SIZE three_way_32k) by discriminate.
  split; [split; assumption|]. split; [reflexivity|].
  exact (proj2 (proj2 (proj2 (conflict_distance_truncates three_way_32k Ha Hs)))).
Defined.

Lemma L1D_SIZE_kilobyte_multiple (c : CacheConfig) : (1024 | L1D_SIZE c).
Proof.
  unfold L1D_SIZE. destruct (defined_L1D_SIZE_K c) as [k|].
  - exists k. reflexivity.
  - exists 32. reflexivity.
Qed.

(** An associativity that divides 1024 (1, 2, 4, 8, 16, ...) divides every
    cache size the header can produce, so the eviction region is exactly
    [L1D_ASSOCIATIVITY] conflict distances long whatever [L1D_SIZE_K] is. *)
Theorem power_of_two_ways_tile_eviction_region (c : CacheConfig) :
  (L1D_ASSOCIATIVITY c | 1024) ->
  (L1D_ASSOCIATIVITY c | L1D_SIZE c) /\
  EVICT_REGION_SIZE c = L1D_ASSOCIATIVITY c * L1D_CONFLICT_DISTANCE c.
Proof.
  intros Ha.
  assert (Hdiv : (L1D_ASSOCIATIVITY c | L1D_SIZE c))
    by (eapply Z.divide_trans; [exact Ha | apply L1D_SIZE_kilobyte_multiple]).
  split; [exact Hdiv|].
  unfold EVICT_REGION_SIZE, L1D_CONFLICT_DISTANCE. apply quot_exact, Hdiv.
Qed.

(** Sixteen ways of 3072 bytes make up a 48KB cache. *)
Lemma power_of_two_ways_tile_eviction_region_witness :
  (L1D_ASSOCIATIVITY sixteen_way_48k | 1024) /\
  EVICT_REGION_SIZE sixteen_way_48k =
    L1D_ASSOCIATIVITY sixteen_way_48k * L1D_CONFLICT_DISTANCE sixteen_way_48k.
Proof.
  assert (Ha : (L1D_ASSOCIATIVITY sixteen_way_48k | 1024))
    by (exists 64; reflexivity).
  split; [exact Ha|].
  exact (proj2 (power_of_two_ways_tile_eviction_region sixteen_way_48k Ha)).
Defined.

Lemma mod_page_shift (x n : Z) : (x + n * 4096) mod 4096 = x mod 4096.
Proof. apply Z_mod_plus_full. Qed.

(** The four 4096-byte regions start at offsets congruent to the cache size
    modulo 4096, so they sit on 4096-byte boundaries of the sandbox exactly
    when the cache size does: with the size given in kilobytes, exactly when
    [L1D_SIZE_K] is a multiple of 4; with the fallback size, always. *)
Theorem page_regions_alignment :
  (forall c,
     let page_offset name :=
       option_map (fun o => o mod 4096)
         (Layout.offsetof (Sandbox_members c) name) in
     page_offset "lower_overflow" = Some (L1D_SIZE c mod 4096) /\
     page_offset "main_region" = Some (L1D_SIZE c mod 4096) /\
     page_offset "faulty_region" = Some (L1D_SIZE c mod 4096) /\
     page_offset "upper_overflow" = Some (L1D_SIZE c mod 4096)) /\
  (forall a k,
     EVICT_REGION_OFFSET (mkCacheConfig a (Some k)) mod 4096 = 0 <->
     k mod 4 = 0) /\
  (forall a, EVICT_REGION_OFFSET (mkCacheConfig a None) mod 4096 = 0).
Proof.
  split; [|split].
  - intros c. cbv zeta.
    destruct (Sandbox_offsetof c) as (_ & Hl & Hm & Hf & Hu & _).
    rewrite Hl, Hm, Hf, Hu. cbn [option_map]. unfold EVICT_REGION_SIZE.
    repeat split; f_equal.
    + apply (mod_page_shift (L1D_SIZE c) 1).
    + apply (mod_page_shift (L1D_SIZE c) 2).
    + apply (mod_page_shift (L1D_SIZE c) 3).
  - intros a k.
    unfold EVICT_REGION_OFFSET, EVICT_REGION_SIZE, OVERFLOW_REGION_SIZE, L1D_SIZE.
    cbn [defined_L1D_SIZE_K].
    replace (k * 1024 + 4096) with (k * 1024 + 1 * 4096) by lia.
    rewrite (mod_page_shift (k * 1024) 1).
    replace 4096 with (4 * 1024) by reflexivity.
    rewrite Z.mul_mod_distr_r by lia. lia.
  - intros a. reflexivity.
Qed.

(** For every cache configuration a block of [INPUT_SIZE] bytes that starts
    at [main_region] covers [main_region], [faulty_region] and
    [upper_overflow] exactly and stops where [stored_rsp] begins
    ([INPUT_SIZE] = [RSP_OFFSET]); its last page starts at
    [REG_INIT_OFFSET], the start of [upper_overflow], and the
    [REG_INITIALIZATION_REGION_SIZE] bytes there end before [stored_rsp]. *)
Theorem input_block_stops_at_stored_rsp (c : CacheConfig) :
  sandbox_distance c "main_region" "stored_rsp" = Some INPUT_SIZE /\
  INPUT_SIZE = RSP_OFFSET /\
  (exists m f u,
     Layout.size_in "main_region" (Sandbox_members c) = Some m /\
     Layout.size_in "faulty_region" (Sandbox_members c) = Some f /\
     Layout.size_in "upper_overflow" (Sandbox_members c) = Some u /\
     INPUT_SIZE = m + f + u /\
     REG_INITIALIZATION_REGION_SIZE_ALIGNED = u) /\
  sandbox_distance c "main_region" "upper_overflow" =
    Some (INPUT_SIZE - REG_INITIALIZATION_REGION_SIZE_ALIGNED) /\
  INPUT_SIZE - REG_INITIALIZATION_REGION_SIZE_ALIGNED = REG_INIT_OFFSET /\
  REG_INIT_OFFSET + REG_INITIALIZATION_REGION_SIZE < RSP_OFFSET.
Proof.
  destruct (Sandbox_offsetof c) as (_ & _ & Hm & _ & Hu & Hr & _).
  unfold sandbox_distance. rewrite Hm, Hu, Hr.
  split; [f_equal; unfold INPUT_SIZE, MAIN_REGION_SIZE, FAULTY_REGION_SIZE,
            REG_INITIALIZATION_REGION_SIZE_ALIGNED; lia|].
  split; [reflexivity|].
  split; [exists 4096, 4096, 4096; repeat split; reflexivity|].
  split; [f_equal; unfold INPUT_SIZE, MAIN_REGION_SIZE, FAULTY_REGION_SIZE,
            REG_INITIALIZATION_REGION_SIZE_ALIGNED; lia|].
  split; reflexivity.
Qed.
